(** * The IPE scoring engine of [job_eval.py]

    A shallow embedding of [calculate_ipe_score] and [score_to_level]
    together with the lookup tables they read, and the properties of the
    engine stated in the specification.

    Numbers.  A rating, a size factor and a table key is a Python [int] or
    [float].  Python compares and hashes the two by their mathematical value
    ([1 == 1.0], and a dict built with the key [1] is hit by [1.0]), so a
    finite number is modelled by the rational it denotes and keys are compared
    with [Qeq_bool]; the two infinities and NaN are kept apart because
    [int()] raises on them and no table has them as a key.  Values that are
    not numbers (a JSON null or a string, which the loop of
    [evaluate_dimensions] would hand on as it finds them) are outside this
    model: the engine is stated for the [Dict[str, float]] and [float] of its
    signature.  The one place
    where the engine does floating-point arithmetic, the banding formula
    [int((total_pts - 26) / 25 + 40)], is modelled with the IEEE-754 binary64
    operations of [SpecFloat].

    Around the engine the file also embeds the data that
    [display_evaluation_results] computes, the branch taken after an
    evaluation in [main] and [evaluate_from_structured_inputs], the loop of
    [evaluate_dimensions] that turns the parsed answer into ratings, and the
    extraction of the JSON object from the reply in [query_claude_json].  The
    network calls, [json.loads] itself and the Streamlit rendering are outside
    the model. *)

From Stdlib Require Import ZArith QArith Qround List Lia Bool.
From Stdlib Require Import Floats.SpecFloat.
From Stdlib Require Import Ascii.
From stdpp Require Import gmap strings.
Import ListNotations.

Local Open Scope Z_scope.

(** ** Python values and exceptions *)

Inductive pynum : Type :=
| Num (q : Q)          (* a finite int or float, by value *)
| Inf (negative : bool) (* float('inf'), float('-inf') *)
| NaN.                  (* float('nan') *)

Inductive exn : Type :=
| ValueError      (* int(nan): cannot convert float NaN to integer *)
| OverflowError.  (* int(inf): cannot convert float infinity to integer *)

Inductive result (A : Type) : Type :=
| Ok (a : A)
| Raise (e : exn).
Arguments Ok {A} a.
Arguments Raise {A} e.

#[global] Instance result_ret : MRet result := fun A a => Ok a.
#[global] Instance result_bind : MBind result := fun A B k m =>
  match m with
  | Ok a => k a
  | Raise e => Raise e
  end.

(** [int(x)]: truncation towards zero; raises on NaN and on the infinities. *)
Definition py_int (x : pynum) : result Z :=
  match x with
  | Num q => Ok (Z.quot (Qnum q) (Zpos (Qden q)))
  | Inf _ => Raise OverflowError
  | NaN => Raise ValueError
  end.

(** ** Dictionaries with number keys *)

Definition dict (V : Type) : Type := list (Q * V).

Fixpoint dict_find {V : Type} (d : dict V) (q : Q) : option V :=
  match d with
  | [] => None
  | (k, v) :: d' => if Qeq_bool k q then Some v else dict_find d' q
  end.

(** [d.get(key, default)] *)
Definition dict_get {V : Type} (d : dict V) (key : pynum) (default : V) : V :=
  match key with
  | Num q => match dict_find d q with Some v => v | None => default end
  | _ => default
  end.

(** [ratings.get(name, default)] on the string-keyed ratings dict. *)
Definition ratings_get (ratings : gmap string pynum) (name : string)
    (default : pynum) : pynum :=
  match ratings !! name with
  | Some v => v
  | None => default
  end.

(** ** Binary64 arithmetic of the banding formula *)

Definition prec : Z := 53.
Definition emax : Z := 1024.

(** [float(z)] *)
Definition float_of_int (z : Z) : spec_float := binary_normalize prec emax z 0 false.

(** [a / b] on two ints (true division).  CPython divides the two ints as
    doubles when both fit in 53 bits, which is the case for every total the
    tables can produce. *)
Definition truediv (a b : Z) : spec_float :=
  SFdiv prec emax (float_of_int a) (float_of_int b).

(** [x + n] with [x] a float and [n] an int *)
Definition float_add_int (x : spec_float) (n : Z) : spec_float :=
  SFadd prec emax x (float_of_int n).

(** [int(x)] on a float *)
Definition int_of_float (x : spec_float) : result Z :=
  match x with
  | S754_zero _ => Ok 0
  | S754_infinity _ => Raise OverflowError
  | S754_nan => Raise ValueError
  | S754_finite s m e => Ok (cond_Zopp s (Z.shiftl (Zpos m) e))
  end.

(** ** Module-level data *)

Record globals : Type := {
  IMPACT_CONTRIBUTION_TABLE : dict (dict Q);
  IMPACT_SIZE_TABLE : dict (dict Z);
  COMMUNICATION_FRAME_TABLE : dict (dict Z);
  INNOVATION_COMPLEXITY_TABLE : dict (dict Z);
  KNOWLEDGE_TEAMS_TABLE : dict (dict Z);
  BREADTH_TABLE : dict Z;
  IPE_LEVEL_MAPPING : list (Z * Z * Z)
}.

(** The tables as the module defines them.  [k |-> v] is the dict entry
    [k: v]; a key is a number, read in [Q]. *)
Notation "k |-> v" := (pair k%Q v) (at level 60, no associativity, only parsing).

Definition module_globals : globals := {|
  IMPACT_CONTRIBUTION_TABLE := [
    1 |-> [1 |-> 1; 1.5 |-> 1.5; 2 |-> 2; 2.5 |-> 2.5; 3 |-> 3; 3.5 |-> 3.5; 4 |-> 4; 4.5 |-> 4.5; 5 |-> 5];
    1.5 |-> [1 |-> 2.5; 2 |-> 3; 2.5 |-> 3.5; 3 |-> 4; 3.5 |-> 4.5; 4 |-> 5; 4.5 |-> 5.5; 5 |-> 6.5];
    2 |-> [1 |-> 4; 1.5 |-> 4.5; 2 |-> 5; 2.5 |-> 5.5; 3 |-> 6; 3.5 |-> 6.5; 4 |-> 7; 4.5 |-> 7.5; 5 |-> 8];
    2.5 |-> [1 |-> 5.5; 1.5 |-> 6; 2 |-> 6.5; 2.5 |-> 7; 3 |-> 7.5; 3.5 |-> 8; 4 |-> 8.5; 4.5 |-> 9; 5 |-> 9.5];
    3 |-> [1 |-> 7; 1.5 |-> 7.5; 2 |-> 8; 2.5 |-> 8.5; 3 |-> 9; 3.5 |-> 9.5; 4 |-> 10; 4.5 |-> 10.5; 5 |-> 11];
    3.5 |-> [1 |-> 8.5; 1.5 |-> 9; 2 |-> 9.5; 2.5 |-> 10; 3 |-> 10.5; 3.5 |-> 11; 4 |-> 11.5; 4.5 |-> 12; 5 |-> 12.5];
    4 |-> [1 |-> 10; 1.5 |-> 10.5; 2 |-> 11; 2.5 |-> 11.5; 3 |-> 12; 3.5 |-> 12.5; 4 |-> 13; 4.5 |-> 13.5; 5 |-> 14];
    4.5 |-> [1 |-> 11.5; 1.5 |-> 12; 2 |-> 12.5; 2.5 |-> 13; 3 |-> 13.5; 3.5 |-> 14; 4 |-> 14.5; 4.5 |-> 15; 5 |-> 15.5];
    5 |-> [1 |-> 13; 1.5 |-> 13.5; 2 |-> 14; 2.5 |-> 14.5; 3 |-> 15; 3.5 |-> 15.5; 4 |-> 16; 4.5 |-> 16.5; 5 |-> 17]
  ]%Q;
  IMPACT_SIZE_TABLE := [
    1 |-> [1 |-> 5; 2 |-> 5; 3 |-> 5; 4 |-> 5; 5 |-> 5; 6 |-> 5; 7 |-> 5; 8 |-> 5; 9 |-> 5; 10 |-> 5; 11 |-> 5; 12 |-> 5; 13 |-> 5];
    1.5 |-> [1 |-> 10; 2 |-> 10; 3 |-> 10; 4 |-> 10; 5 |-> 10; 6 |-> 10; 7 |-> 10; 8 |-> 10; 9 |-> 10; 10 |-> 10; 11 |-> 10; 12 |-> 10; 13 |-> 10];
    2 |-> [1 |-> 15; 2 |-> 15; 3 |-> 15; 4 |-> 15; 5 |-> 15; 6 |-> 15; 7 |-> 15; 8 |-> 15; 9 |-> 15; 10 |-> 15; 11 |-> 15; 12 |-> 15; 13 |-> 15];
    2.5 |-> [1 |-> 20; 2 |-> 20; 3 |-> 20; 4 |-> 20; 5 |-> 20; 6 |-> 20; 7 |-> 20; 8 |-> 20; 9 |-> 20; 10 |-> 20; 11 |-> 20; 12 |-> 20; 13 |-> 20];
    3 |-> [1 |-> 25; 2 |-> 25; 3 |-> 25; 4 |-> 25; 5 |-> 25; 6 |-> 25; 7 |-> 25; 8 |-> 25; 9 |-> 25; 10 |-> 25; 11 |-> 25; 12 |-> 25; 13 |-> 25];
    3.5 |-> [1 |-> 31; 2 |-> 32; 3 |-> 32; 4 |-> 33; 5 |-> 33; 6 |-> 34; 7 |-> 34; 8 |-> 35; 9 |-> 35; 10 |-> 36; 11 |-> 36; 12 |-> 37; 13 |-> 37];
    4 |-> [1 |-> 37; 2 |-> 38; 3 |-> 39; 4 |-> 40; 5 |-> 41; 6 |-> 42; 7 |-> 43; 8 |-> 44; 9 |-> 45; 10 |-> 46; 11 |-> 47; 12 |-> 48; 13 |-> 49];
    4.5 |-> [1 |-> 41; 2 |-> 43; 3 |-> 44; 4 |-> 46; 5 |-> 47; 6 |-> 49; 7 |-> 50; 8 |-> 52; 9 |-> 53; 10 |-> 55; 11 |-> 56; 12 |-> 58; 13 |-> 59];
    5 |-> [1 |-> 44; 2 |-> 46; 3 |-> 48; 4 |-> 50; 5 |-> 52; 6 |-> 54; 7 |-> 56; 8 |-> 58; 9 |-> 60; 10 |-> 62; 11 |-> 64; 12 |-> 66; 13 |-> 68];
    5.5 |-> [1 |-> 50; 2 |-> 53; 3 |-> 55; 4 |-> 58; 5 |-> 60; 6 |-> 63; 7 |-> 65; 8 |-> 68; 9 |-> 70; 10 |-> 73; 11 |-> 75; 12 |-> 78; 13 |-> 80];
    6 |-> [1 |-> 56; 2 |-> 59; 3 |-> 62; 4 |-> 65; 5 |-> 68; 6 |-> 71; 7 |-> 74; 8 |-> 77; 9 |-> 80; 10 |-> 83; 11 |-> 86; 12 |-> 89; 13 |-> 92];
    6.5 |-> [1 |-> 60; 2 |-> 64; 3 |-> 67; 4 |-> 71; 5 |-> 74; 6 |-> 78; 7 |-> 81; 8 |-> 85; 9 |-> 88; 10 |-> 92; 11 |-> 95; 12 |-> 99; 13 |-> 102];
    7 |-> [1 |-> 63; 2 |-> 67; 3 |-> 71; 4 |-> 75; 5 |-> 79; 6 |-> 83; 7 |-> 87; 8 |-> 91; 9 |-> 95; 10 |-> 99; 11 |-> 103; 12 |-> 107; 13 |-> 111];
    7.5 |-> [1 |-> 72; 2 |-> 76; 3 |-> 80; 4 |-> 85; 5 |-> 89; 6 |-> 93; 7 |-> 97; 8 |-> 102; 9 |-> 106; 10 |-> 110; 11 |-> 114; 12 |-> 119; 13 |-> 123];
    8 |-> [1 |-> 80; 2 |-> 85; 3 |-> 89; 4 |-> 94; 5 |-> 98; 6 |-> 103; 7 |-> 107; 8 |-> 112; 9 |-> 116; 10 |-> 121; 11 |-> 125; 12 |-> 130; 13 |-> 134];
    8.5 |-> [1 |-> 84; 2 |-> 89; 3 |-> 94; 4 |-> 99; 5 |-> 104; 6 |-> 109; 7 |-> 114; 8 |-> 119; 9 |-> 124; 10 |-> 129; 11 |-> 134; 12 |-> 139; 13 |-> 144];
    9 |-> [1 |-> 87; 2 |-> 93; 3 |-> 98; 4 |-> 104; 5 |-> 109; 6 |-> 115; 7 |-> 120; 8 |-> 126; 9 |-> 131; 10 |-> 137; 11 |-> 142; 12 |-> 148; 13 |-> 153];
    9.5 |-> [1 |-> 96; 2 |-> 102; 3 |-> 107; 4 |-> 113; 5 |-> 119; 6 |-> 125; 7 |-> 130; 8 |-> 136; 9 |-> 142; 10 |-> 148; 11 |-> 153; 12 |-> 159; 13 |-> 165];
    10 |-> [1 |-> 104; 2 |-> 110; 3 |-> 116; 4 |-> 122; 5 |-> 128; 6 |-> 134; 7 |-> 140; 8 |-> 146; 9 |-> 152; 10 |-> 158; 11 |-> 164; 12 |-> 170; 13 |-> 176];
    10.5 |-> [1 |-> 108; 2 |-> 115; 3 |-> 121; 4 |-> 128; 5 |-> 134; 6 |-> 141; 7 |-> 147; 8 |-> 154; 9 |-> 160; 10 |-> 167; 11 |-> 173; 12 |-> 180; 13 |-> 186];
    11 |-> [1 |-> 111; 2 |-> 118; 3 |-> 125; 4 |-> 132; 5 |-> 139; 6 |-> 146; 7 |-> 153; 8 |-> 160; 9 |-> 167; 10 |-> 174; 11 |-> 181; 12 |-> 188; 13 |-> 195];
    11.5 |-> [1 |-> 120; 2 |-> 128; 3 |-> 135; 4 |-> 143; 5 |-> 150; 6 |-> 158; 7 |-> 165; 8 |-> 173; 9 |-> 180; 10 |-> 188; 11 |-> 195; 12 |-> 203; 13 |-> 210];
    12 |-> [1 |-> 128; 2 |-> 136; 3 |-> 144; 4 |-> 152; 5 |-> 160; 6 |-> 168; 7 |-> 176; 8 |-> 184; 9 |-> 192; 10 |-> 200; 11 |-> 208; 12 |-> 216; 13 |-> 224];
    12.5 |-> [1 |-> 132; 2 |-> 141; 3 |-> 149; 4 |-> 158; 5 |-> 166; 6 |-> 175; 7 |-> 183; 8 |-> 192; 9 |-> 200; 10 |-> 209; 11 |-> 217; 12 |-> 226; 13 |-> 234];
    13 |-> [1 |-> 135; 2 |-> 144; 3 |-> 153; 4 |-> 162; 5 |-> 171; 6 |-> 180; 7 |-> 189; 8 |-> 198; 9 |-> 207; 10 |-> 216; 11 |-> 225; 12 |-> 234; 13 |-> 243];
    13.5 |-> [1 |-> 141; 2 |-> 151; 3 |-> 160; 4 |-> 170; 5 |-> 179; 6 |-> 189; 7 |-> 198; 8 |-> 208; 9 |-> 217; 10 |-> 227; 11 |-> 236; 12 |-> 246; 13 |-> 255];
    14 |-> [1 |-> 147; 2 |-> 157; 3 |-> 167; 4 |-> 177; 5 |-> 187; 6 |-> 197; 7 |-> 207; 8 |-> 217; 9 |-> 227; 10 |-> 237; 11 |-> 247; 12 |-> 257; 13 |-> 267];
    14.5 |-> [1 |-> 151; 2 |-> 162; 3 |-> 172; 4 |-> 183; 5 |-> 193; 6 |-> 204; 7 |-> 214; 8 |-> 225; 9 |-> 235; 10 |-> 246; 11 |-> 256; 12 |-> 268; 13 |-> 280];
    15 |-> [1 |-> 155; 2 |-> 166; 3 |-> 177; 4 |-> 188; 5 |-> 199; 6 |-> 210; 7 |-> 221; 8 |-> 232; 9 |-> 243; 10 |-> 254; 11 |-> 265; 12 |-> 279; 13 |-> 292];
    15.5 |-> [1 |-> 162; 2 |-> 174; 3 |-> 185; 4 |-> 197; 5 |-> 208; 6 |-> 220; 7 |-> 231; 8 |-> 243; 9 |-> 254; 10 |-> 267; 11 |-> 279; 12 |-> 293; 13 |-> 307];
    16 |-> [1 |-> 168; 2 |-> 180; 3 |-> 192; 4 |-> 204; 5 |-> 216; 6 |-> 228; 7 |-> 240; 8 |-> 252; 9 |-> 264; 10 |-> 279; 11 |-> 293; 12 |-> 308; 13 |-> 322];
    16.5 |-> [1 |-> 172; 2 |-> 185; 3 |-> 197; 4 |-> 210; 5 |-> 222; 6 |-> 235; 7 |-> 247; 8 |-> 261; 9 |-> 275; 10 |-> 290; 11 |-> 305; 12 |-> 320; 13 |-> 335];
    17 |-> [1 |-> 176; 2 |-> 189; 3 |-> 202; 4 |-> 215; 5 |-> 228; 6 |-> 241; 7 |-> 254; 8 |-> 270; 9 |-> 285; 10 |-> 301; 11 |-> 316; 12 |-> 332; 13 |-> 347]
  ];
  COMMUNICATION_FRAME_TABLE := [
    1 |-> [1 |-> 10; 2 |-> 18; 3 |-> 25; 4 |-> 30];
    2 |-> [1 |-> 22; 2 |-> 33; 3 |-> 35; 4 |-> 45];
    3 |-> [1 |-> 33; 2 |-> 40; 3 |-> 50; 4 |-> 55];
    4 |-> [1 |-> 45; 2 |-> 55; 3 |-> 65; 4 |-> 75];
    5 |-> [1 |-> 60; 2 |-> 70; 3 |-> 80; 4 |-> 95]
  ];
  INNOVATION_COMPLEXITY_TABLE := [
    1 |-> [1 |-> 10; 2 |-> 13; 3 |-> 18; 4 |-> 25];
    2 |-> [1 |-> 18; 2 |-> 23; 3 |-> 25; 4 |-> 30];
    3 |-> [1 |-> 33; 2 |-> 38; 3 |-> 40; 4 |-> 45];
    4 |-> [1 |-> 45; 2 |-> 53; 3 |-> 55; 4 |-> 65];
    5 |-> [1 |-> 60; 2 |-> 75; 3 |-> 80; 4 |-> 95];
    6 |-> [1 |-> 80; 2 |-> 95; 3 |-> 110; 4 |-> 140]
  ];
  KNOWLEDGE_TEAMS_TABLE := [
    1 |-> [1 |-> 15; 1.5 |-> 23; 2 |-> 30; 2.5 |-> 45; 3 |-> 60];
    2 |-> [1 |-> 30; 1.5 |-> 40; 2 |-> 48; 2.5 |-> 63; 3 |-> 78];
    3 |-> [1 |-> 50; 1.5 |-> 58; 2 |-> 65; 2.5 |-> 80; 3 |-> 95];
    4 |-> [1 |-> 63; 1.5 |-> 70; 2 |-> 78; 2.5 |-> 93; 3 |-> 108];
    5 |-> [1 |-> 75; 1.5 |-> 83; 2 |-> 90; 2.5 |-> 105; 3 |-> 120];
    6 |-> [1 |-> 90; 1.5 |-> 113; 2 |-> 125; 2.5 |-> 138; 3 |-> 150];
    7 |-> [1 |-> 113; 1.5 |-> 131; 2 |-> 148; 2.5 |-> 161; 3 |-> 173];
    8 |-> [1 |-> 180; 1.5 |-> 198; 2 |-> 215; 2.5 |-> 228; 3 |-> 240]
  ];
  BREADTH_TABLE := [1 |-> 0; 1.5 |-> 5; 2 |-> 10; 2.5 |-> 15; 3 |-> 20];
  IPE_LEVEL_MAPPING := [
    (40, 41, 1); (42, 43, 2); (44, 45, 3); (46, 47, 4);
    (48, 50, 5); (51, 52, 6); (53, 55, 7); (56, 57, 8);
    (58, 59, 9); (60, 61, 10); (62, 65, 11); (66, 73, 12)
  ]
|}.

(** ** The engine *)

(** The dict returned next to the score. *)
Record breakdown : Type := {
  impact_contribution_size : Z;
  intermediate_value : Q;
  communication_frame : Z;
  innovation_complexity : Z;
  knowledge_teams : Z;
  breadth : Z;
  size : pynum;
  total : Z
}.

(** The lookups and the sum of [calculate_ipe_score], up to [total_pts]. *)
Definition lookup_points (g : globals) (ratings : gmap string pynum)
    (size : pynum) : result breakdown :=
  (* Step 1: intermediate value from Impact x Contribution *)
  impact ← py_int (ratings_get ratings "impact" (Num 1));
  let contribution := ratings_get ratings "contribution" (Num 1) in
  let intermediate_value :=
    dict_get (dict_get (IMPACT_CONTRIBUTION_TABLE g) (Num (inject_Z impact)) [])
             contribution 1%Q in
  (* Step 2: Impact/Contribution/Size points, intermediate value x Size *)
  size_col ← py_int size;
  let impact_contrib_size_pts :=
    dict_get (dict_get (IMPACT_SIZE_TABLE g) (Num intermediate_value) [])
             (Num (inject_Z size_col)) 0 in
  (* other dimension points *)
  communication ← py_int (ratings_get ratings "communication" (Num 1));
  let comm_frame_pts :=
    dict_get (dict_get (COMMUNICATION_FRAME_TABLE g) (Num (inject_Z communication)) [])
             (ratings_get ratings "frame" (Num 1)) 0 in
  innovation ← py_int (ratings_get ratings "innovation" (Num 1));
  let innov_complex_pts :=
    dict_get (dict_get (INNOVATION_COMPLEXITY_TABLE g) (Num (inject_Z innovation)) [])
             (ratings_get ratings "complexity" (Num 1)) 0 in
  knowledge ← py_int (ratings_get ratings "knowledge" (Num 1));
  let knowledge_teams_pts :=
    dict_get (dict_get (KNOWLEDGE_TEAMS_TABLE g) (Num (inject_Z knowledge)) [])
             (ratings_get ratings "teams" (Num 1)) 0 in
  let breadth_pts :=
    dict_get (BREADTH_TABLE g) (ratings_get ratings "breadth" (Num 1)) 0 in
  (* total points *)
  let total_pts :=
    impact_contrib_size_pts + comm_frame_pts + innov_complex_pts +
    knowledge_teams_pts + breadth_pts in
  mret {| impact_contribution_size := impact_contrib_size_pts;
          intermediate_value := intermediate_value;
          communication_frame := comm_frame_pts;
          innovation_complexity := innov_complex_pts;
          knowledge_teams := knowledge_teams_pts;
          breadth := breadth_pts;
          size := size;
          total := total_pts |}.

(** The banding step: [None] is Python's [None]. *)
Definition ipe_of_total (total_pts : Z) : result (option Z) :=
  if total_pts >? 26 then
    ipe_score ← int_of_float (float_add_int (truediv (total_pts - 26) 25) 40);
    mret (Some ipe_score)
  else
    mret None.

Definition calculate_ipe_score (g : globals) (ratings : gmap string pynum)
    (size : pynum) : result (option Z * breakdown) :=
  b ← lookup_points g ratings size;
  ipe_score ← ipe_of_total (total b);
  mret (ipe_score, b).

(** The [for] loop of [score_to_level] over the remaining bands. *)
Fixpoint score_to_level_loop (bands : list (Z * Z * Z)) (ipe_score : Z) : Z :=
  match bands with
  | [] => 1
  | (lo, hi, level) :: bands' =>
      if (lo <=? ipe_score) && (ipe_score <=? hi) then level
      else score_to_level_loop bands' ipe_score
  end.

Definition score_to_level (g : globals) (ipe_score : Z) : Z :=
  score_to_level_loop (IPE_LEVEL_MAPPING g) ipe_score.

(** ** The scenarios of the specification *)

Definition scenario_low : gmap string pynum :=
  {[ "impact" := Num 1; "contribution" := Num 1; "communication" := Num 1;
     "frame" := Num 1; "innovation" := Num 1; "complexity" := Num 1;
     "knowledge" := Num 3; "teams" := Num 1; "breadth" := Num 1 ]}.

Definition scenario_high : gmap string pynum :=
  {[ "impact" := Num 4; "contribution" := Num 4; "communication" := Num 4;
     "frame" := Num 3; "innovation" := Num 4; "complexity" := Num 3;
     "knowledge" := Num 7; "teams" := Num 2.5; "breadth" := Num 2.5 ]}.

(** An input whose total is exactly 27, the lowest total with a score. *)
Definition scenario_27 : gmap string pynum :=
  {[ "communication" := Num 2; "complexity" := Num 9; "teams" := Num 9 ]}.

(** An input whose total stays under the banding offset. *)
Definition scenario_no_score : gmap string pynum :=
  {[ "frame" := Num 9; "complexity" := Num 9; "teams" := Num 9 ]}.

(** ** Auxiliary definitions for the proofs *)

(** The integers [lo, lo+1, ..., lo+n-1]. *)
Definition Z_range (lo : Z) (n : nat) : list Z :=
  map (fun i => lo + Z.of_nat i) (seq 0 n).

(** Every value stored in a dict satisfies [P]. *)
Definition dict_all {V : Type} (P : V -> bool) (d : dict V) : bool :=
  forallb (fun kv => P (snd kv)) d.

Definition between (lo hi : Z) (z : Z) : bool := (lo <=? z) && (z <=? hi).


(** The largest total the tables can produce: the sum of their maxima. *)
Definition max_total : Z := 347 + 95 + 140 + 240 + 20.

(** On total [t] the binary64 banding gives the integer formula. *)
Definition banding_agrees (t : Z) : bool :=
  match ipe_of_total t with
  | Ok (Some s) => s =? (t - 26) / 25 + 40
  | _ => false
  end.

(** [lo <= ipe_score <= hi] for a band of the level table. *)
Definition in_band (ipe_score : Z) (band : Z * Z * Z) : bool :=
  let '(lo, hi, _) := band in (lo <=? ipe_score) && (ipe_score <=? hi).

(** Exactly one band holds [s], and [score_to_level] returns its level. *)
Definition one_band_and_its_level (s : Z) : bool :=
  match filter (in_band s) (IPE_LEVEL_MAPPING module_globals) with
  | [(_, _, level)] => score_to_level module_globals s =? level
  | _ => false
  end.

(** The breakdowns of [scenario_27] and [scenario_no_score] at size 1. *)
Definition breakdown_27 : breakdown :=
  {| impact_contribution_size := 5; intermediate_value := 1;
     communication_frame := 22; innovation_complexity := 0;
     knowledge_teams := 0; breadth := 0; size := Num 1; total := 27 |}.

Definition breakdown_no_score : breakdown :=
  {| impact_contribution_size := 5; intermediate_value := 1;
     communication_frame := 0; innovation_complexity := 0;
     knowledge_teams := 0; breadth := 0; size := Num 1; total := 5 |}.

(** ** The lookups in the words of the specification *)

(** The integer part of a rating: truncation, so that 3.5 selects row 3. *)
Definition integer_part (q : Q) : Z :=
  if Qle_bool 0 q then Qfloor q else Qceiling q.

(** The entry of a two-axis table at [(rowKey, colKey)], when the table has
    one.  NaN and the infinities are keys of no table. *)
Definition table_entry {V : Type} (T : dict (dict V)) (rowKey : Q)
    (colKey : pynum) : option V :=
  match dict_find T rowKey, colKey with
  | Some r, Num c => dict_find r c
  | _, _ => None
  end.

(** The entry of the single-axis Breadth table. *)
Definition axis_entry {V : Type} (T : dict V) (key : pynum) : option V :=
  match key with
  | Num k => dict_find T k
  | _ => None
  end.

(** ** Calls made in sequence against the module's data *)





(** A finite number: an int, or a float other than NaN and the infinities. *)
Definition finite (x : pynum) : Prop := exists q, x = Num q.

(** Ratings on half steps, with a fractional size. *)
Definition scenario_half_steps : gmap string pynum :=
  {[ "impact" := Num 4; "contribution" := Num 4.5; "communication" := Num 3.5;
     "frame" := Num 3; "innovation" := Num 4.5; "complexity" := Num 3;
     "knowledge" := Num 6.5; "teams" := Num 2.5; "breadth" := Num 2.5 ]}.

(** Ratings that miss every table but Impact x Size. *)
Definition scenario_misses : gmap string pynum :=
  {[ "impact" := Num 9; "frame" := Num 9; "complexity" := Num 9;
     "teams" := Num 9; "breadth" := Num 9 ]}.

(** An impact rating that is not a row of the Impact x Contribution table. *)
Definition scenario_impact_9 : gmap string pynum := {[ "impact" := Num 9 ]}.

(** The breakdown of an input with no usable impact row, at size 1, and of
    the empty ratings dict at size 7. *)
Definition breakdown_impact_9 : breakdown :=
  {| impact_contribution_size := 5; intermediate_value := 1;
     communication_frame := 10; innovation_complexity := 10;
     knowledge_teams := 15; breadth := 0; size := Num 1; total := 40 |}.

Definition breakdown_empty : breakdown :=
  {| impact_contribution_size := 5; intermediate_value := 1;
     communication_frame := 10; innovation_complexity := 10;
     knowledge_teams := 15; breadth := 0; size := Num 7; total := 40 |}.

(** ** Valid ratings and steps *)

(** The allowed values of each dimension, in increasing order. *)
Definition impact_steps : list Q := [1; 2; 3; 4; 5]%Q.
Definition contribution_steps : list Q :=
  [1; 1.5; 2; 2.5; 3; 3.5; 4; 4.5; 5]%Q.
Definition communication_steps : list Q :=
  [1; 1.5; 2; 2.5; 3; 3.5; 4; 4.5; 5]%Q.
Definition frame_steps : list Q := [1; 2; 3; 4]%Q.
Definition innovation_steps : list Q :=
  [1; 1.5; 2; 2.5; 3; 3.5; 4; 4.5; 5; 5.5; 6]%Q.
Definition complexity_steps : list Q := [1; 2; 3; 4]%Q.
Definition knowledge_steps : list Q :=
  [1; 1.5; 2; 2.5; 3; 3.5; 4; 4.5; 5; 5.5; 6; 6.5; 7; 7.5; 8]%Q.
Definition teams_steps : list Q := [1; 1.5; 2; 2.5; 3]%Q.
Definition breadth_steps : list Q := [1; 1.5; 2; 2.5; 3]%Q.

(** The nine dimensions of a ratings dict. *)
Definition dimensions : list (string * list Q) :=
  [ ("impact", impact_steps);
    ("contribution", contribution_steps);
    ("communication", communication_steps);
    ("frame", frame_steps);
    ("innovation", innovation_steps);
    ("complexity", complexity_steps);
    ("knowledge", knowledge_steps);
    ("teams", teams_steps);
    ("breadth", breadth_steps) ].

(** [q] is one of the values [steps], as a number. *)
Definition is_step (q : Q) (steps : list Q) : Prop :=
  exists s, In s steps /\ q == s.

(** The pairs of a value and the next one. *)
Definition adjacent (steps : list Q) : list (Q * Q) := combine steps (tl steps).

(** [q'] is the next defined step after [q]. *)
Definition next_step (steps : list Q) (q q' : Q) : Prop :=
  exists s s', In (s, s') (adjacent steps) /\ q == s /\ q' == s'.

(** All nine keys present, each with a value of its allowed set. *)
Definition valid_ratings (ratings : gmap string pynum) : Prop :=
  forall d steps, In (d, steps) dimensions ->
    exists q, ratings !! d = Some (Num q) /\ is_step q steps.

(** The component of the breakdown that a dimension feeds. *)
Definition component (d : string) (b : breakdown) : Z :=
  if String.eqb d "impact" || String.eqb d "contribution" then
    impact_contribution_size b
  else if String.eqb d "communication" || String.eqb d "frame" then
    communication_frame b
  else if String.eqb d "innovation" || String.eqb d "complexity" then
    innovation_complexity b
  else if String.eqb d "knowledge" || String.eqb d "teams" then
    knowledge_teams b
  else breadth b.

(** The points of each component as a function of the finite ratings that
    feed it. *)
Definition impact_size_points (g : globals) (sc : Z) (imp con : Q) : Z :=
  dict_get
    (dict_get (IMPACT_SIZE_TABLE g)
       (Num (dict_get
               (dict_get (IMPACT_CONTRIBUTION_TABLE g)
                  (Num (inject_Z (integer_part imp))) [])
               (Num con) 1%Q)) [])
    (Num (inject_Z sc)) 0.

Definition two_axis_points (T : dict (dict Z)) (rowRating colRating : Q) : Z :=
  dict_get (dict_get T (Num (inject_Z (integer_part rowRating))) [])
    (Num colRating) 0.

Definition breadth_points (g : globals) (bre : Q) : Z :=
  dict_get (BREADTH_TABLE g) (Num bre) 0.

(** Raising the first rating by one step never lowers [f], on all of
    [rows] x [cols]; the same for the second rating. *)
Definition monotone_in_first (f : Q -> Q -> Z) (rows cols : list Q) : bool :=
  forallb (fun p => forallb (fun c => f (fst p) c <=? f (snd p) c) cols)
    (adjacent rows).

Definition monotone_in_second (f : Q -> Q -> Z) (rows cols : list Q) : bool :=
  forallb (fun r => forallb (fun p => f r (fst p) <=? f r (snd p))
                      (adjacent cols)) rows.

(** The column keys of a row are within [1, 13]. *)
Definition size_keys_only (r : dict Z) : bool :=
  forallb (fun kv => Qle_bool 1 (fst kv) && Qle_bool (fst kv) 13) r.

(** Impact x Size is monotone in both ratings at the size column [sc]. *)
Definition impact_size_monotone (sc : Z) : bool :=
  monotone_in_first (impact_size_points module_globals sc)
    impact_steps contribution_steps &&
  monotone_in_second (impact_size_points module_globals sc)
    impact_steps contribution_steps.

(** ** Auxiliary definitions for the properties beyond the claims *)

(** The banding step on integers: the score of a total, if it has one. *)
Definition banding (t : Z) : option Z :=
  if t >? 26 then Some ((t - 26) / 25 + 40) else None.

(** The band table holds a band with the level returned for [s], and that
    band contains [s]. *)
Definition level_from_band (g : globals) (s : Z) : bool :=
  existsb (fun band => in_band s band && (snd band =? score_to_level g s))
    (IPE_LEVEL_MAPPING g).

(** Levels do not decrease from [s] to any higher score of [scores]. *)
Definition levels_ordered (g : globals) (scores : list Z) (s : Z) : bool :=
  forallb (fun s' => (s' <? s) || (score_to_level g s <=? score_to_level g s'))
    scores.

(** The values [calculate_ipe_score] passes to [int()], in the order in
    which it converts them. *)
Definition converted (ratings : gmap string pynum) (size : pynum) : list pynum :=
  [ ratings_get ratings "impact" (Num 1); size;
    ratings_get ratings "communication" (Num 1);
    ratings_get ratings "innovation" (Num 1);
    ratings_get ratings "knowledge" (Num 1) ].

(** The exception of the first value on which [int()] raises, if any. *)
Fixpoint first_error (xs : list pynum) : option exn :=
  match xs with
  | [] => None
  | Num _ :: xs' => first_error xs'
  | Inf _ :: _ => Some OverflowError
  | NaN :: _ => Some ValueError
  end.

(** The five point components of a breakdown, and the one each rating key
    feeds. *)
Inductive part : Type :=
| ImpactContributionSize
| CommunicationFrame
| InnovationComplexity
| KnowledgeTeams
| Breadth.

Definition points_of (p : part) (b : breakdown) : Z :=
  match p with
  | ImpactContributionSize => impact_contribution_size b
  | CommunicationFrame => communication_frame b
  | InnovationComplexity => innovation_complexity b
  | KnowledgeTeams => knowledge_teams b
  | Breadth => breadth b
  end.

Definition feeds (d : string) : option part :=
  if String.eqb d "impact" || String.eqb d "contribution" then
    Some ImpactContributionSize
  else if String.eqb d "communication" || String.eqb d "frame" then
    Some CommunicationFrame
  else if String.eqb d "innovation" || String.eqb d "complexity" then
    Some InnovationComplexity
  else if String.eqb d "knowledge" || String.eqb d "teams" then
    Some KnowledgeTeams
  else if String.eqb d "breadth" then Some Breadth
  else None.

(** [P] holds on all of [rows] x [cols]. *)
Definition all_steps (P : Q -> Q -> bool) (rows cols : list Q) : bool :=
  forallb (fun a => forallb (P a) cols) rows.

(** On valid ratings a table lookup gives at least [lo] points. *)
Definition at_least (lo : Z) (f : Q -> Q -> Z) (a c : Q) : bool := lo <=? f a c.

(** The breakdown of [scenario_high] at size 8, and with the frame raised
    to 4. *)
Definition breakdown_high : breakdown :=
  {| impact_contribution_size := 198; intermediate_value := 13;
     communication_frame := 65; innovation_complexity := 55;
     knowledge_teams := 161; breadth := 15; size := Num 8; total := 494 |}.

Definition breakdown_high_frame_4 : breakdown :=
  {| impact_contribution_size := 198; intermediate_value := 13;
     communication_frame := 75; innovation_complexity := 55;
     knowledge_teams := 161; breadth := 15; size := Num 8; total := 504 |}.

(** ** The result page *)

(** The dict exported as JSON by [display_evaluation_results]. *)
Record results_json : Type := {
  json_title : string;
  json_ipe_score : Z;
  json_level : Z;
  json_total_points : Z;
  json_ratings : gmap string pynum;
  json_justifications : gmap string string;
  json_guardrails : list string;
  json_breakdown : breakdown
}.

(** What [display_evaluation_results] computes: the level, the Dimension and
    Points columns of the breakdown table, and the exported dict.  The
    formatted strings (metrics, the Detail column) and the Streamlit calls
    that render them are left out. *)
Record evaluation_display : Type := {
  shown_level : Z;
  breakdown_df : list (string * Z);
  export : results_json
}.

Definition display_evaluation_results (g : globals) (ipe_score : Z)
    (breakdown : breakdown) (ratings : gmap string pynum)
    (justifications : gmap string string) (guardrails : list string)
    (title : string) : evaluation_display :=
  let level := score_to_level g ipe_score in
  {| shown_level := level;
     breakdown_df :=
       [ ("Impact Ã— Contribution Ã— Size"%string,
          impact_contribution_size breakdown);
         ("Communication Ã— Frame"%string, communication_frame breakdown);
         ("Innovation Ã— Complexity"%string, innovation_complexity breakdown);
         ("Knowledge Ã— Teams Ã— Breadth"%string,
          knowledge_teams breakdown + breadth breakdown);
         ("**TOTAL**"%string, total breakdown) ];
     export :=
       {| json_title := title;
          json_ipe_score := ipe_score;
          json_level := level;
          json_total_points := total breakdown;
          json_ratings := ratings;
          json_justifications := justifications;
          json_guardrails := guardrails;
          json_breakdown := breakdown |} |}.

(** [if ipe_score:] on an int or [None]. *)
Definition truthy (ipe_score : option Z) : bool :=
  match ipe_score with
  | Some z => negb (z =? 0)
  | None => false
  end.

(** What the page shows after the [try] block of [main] and of
    [evaluate_from_structured_inputs], from the call of
    [calculate_ipe_score] on, for ratings and a size that are numbers.
    [ShowException] is the [except] branch entered by an exception of
    [calculate_ipe_score]; in the source the same branch also reports what is
    raised earlier in the [try] block (the call of the model) and what
    [int()] raises on a rating that is no number, neither of which is
    modelled. *)
Inductive page : Type :=
| ShowResults (d : evaluation_display)
| ShowNoScore              (* "Could not calculate valid IPE score." *)
| ShowException (e : exn). (* "Error during evaluation: ..." *)

Definition evaluate_and_display (g : globals) (ratings : gmap string pynum)
    (size : pynum) (justifications : gmap string string)
    (guardrails : list string) (title : string) : page :=
  match calculate_ipe_score g ratings size with
  | Ok (ipe_score, breakdown) =>
      match ipe_score with
      | Some s =>
          if truthy ipe_score then
            ShowResults (display_evaluation_results g s breakdown ratings
                           justifications guardrails title)
          else ShowNoScore
      | None => ShowNoScore
      end
  | Raise e => ShowException e
  end.

(** The sum of a column of points. *)
Definition sum_points (rows : list (string * Z)) : Z :=
  fold_right (fun row acc => snd row + acc) 0 rows.

(** ** Ratings taken from the model's answer *)

(** The parsed answer, as far as [evaluate_dimensions] reads it: for a
    dimension name an object with an optional ["value"] (a number) and an
    optional ["reasoning"], and an optional list of guardrail notes. *)
Record dimension_answer : Type := {
  answer_value : option pynum;
  answer_reasoning : option string
}.

Record model_answer : Type := {
  answers : gmap string dimension_answer;
  guardrail_notes : option (list string)
}.

Definition DIMENSION_NAMES : list string :=
  [ "impact"; "contribution"; "communication"; "frame"; "innovation";
    "complexity"; "knowledge"; "teams"; "breadth" ]%string.

(** The body of the [for dim in ...] loop. *)
Definition collect_dimension (result : model_answer)
    (acc : gmap string pynum * gmap string string) (dim : string)
    : gmap string pynum * gmap string string :=
  match answers result !! dim with
  | Some a =>
      (<[dim := default (Num 0) (answer_value a)]> (fst acc),
       <[dim := default "No reasoning provided"%string (answer_reasoning a)]>
         (snd acc))
  | None => acc
  end.

(** [evaluate_dimensions] from the parsed answer on: the ratings, the
    justifications and the guardrail notes it returns. *)
Definition collect_ratings (result : model_answer)
    : gmap string pynum * gmap string string * list string :=
  let guardrail_notes := default [] (guardrail_notes result) in
  let '(ratings, justifications) :=
    foldl (collect_dimension result) (∅, ∅) DIMENSION_NAMES in
  (ratings, justifications, guardrail_notes).

(** The ratings alone. *)
Definition collected (result : model_answer) : gmap string pynum :=
  fst (fst (collect_ratings result)).

(** The rating recorded for an answered dimension. *)
Definition rating_of (a : dimension_answer) : pynum :=
  default (Num 0) (answer_value a).

(** No entry of the row has the key 0. *)
Definition no_zero_key {V : Type} (r : dict V) : bool :=
  match dict_find r 0%Q with
  | Some _ => false
  | None => true
  end.

(** An answer with every dimension present and none with a value. *)
Definition answer_without_values : model_answer :=
  {| answers :=
       list_to_map
         (map (fun d => (d, {| answer_value := None; answer_reasoning := None |}))
            DIMENSION_NAMES);
     guardrail_notes := None |}.

(** The breakdown of [answer_without_values] at size 7. *)
Definition breakdown_without_values : breakdown :=
  {| impact_contribution_size := 5; intermediate_value := 1;
     communication_frame := 0; innovation_complexity := 0;
     knowledge_teams := 0; breadth := 0; size := Num 7; total := 5 |}.

(** ** The JSON object in the model's reply *)

(** [text.find(c)] and [text.rfind(c)] for a one-character [c]: the lowest
    and the highest index of [c], or -1.  A text is the list of its
    characters. *)
Fixpoint str_find (c : ascii) (text : list ascii) : Z :=
  match text with
  | [] => -1
  | x :: rest =>
      if Ascii.eqb x c then 0
      else let i := str_find c rest in if i <? 0 then -1 else i + 1
  end.

Fixpoint str_rfind (c : ascii) (text : list ascii) : Z :=
  match text with
  | [] => -1
  | x :: rest =>
      let i := str_rfind c rest in
      if 0 <=? i then i + 1 else if Ascii.eqb x c then 0 else -1
  end.

(** [text[start:stop]] for [0 <= start]. *)
Definition slice (text : list ascii) (start stop : Z) : list ascii :=
  firstn (Z.to_nat (stop - start)) (skipn (Z.to_nat start) text).

(** How [query_claude_json] ends: with the parsed value, or with
    [RuntimeError("Could not parse JSON from Claude response: ...")]. *)
Inductive parsed (J : Type) : Type :=
| Returned (v : J)
| RuntimeError.
Arguments Returned {J} v.
Arguments RuntimeError {J}.

Section QueryClaudeJson.

(** [json.loads]; [None] when it raises. *)
Variable J : Type.
Variable json_loads : list ascii -> option J.

(** [query_claude_json] from the text of the reply on. *)
Definition extract_json (text : list ascii) : parsed J :=
  let start := str_find "{"%char text in
  let stop := str_rfind "}"%char text + 1 in
  if (start >=? 0) && (stop >? start) then
    match json_loads (slice text start stop) with
    | Some v => Returned v
    | None => RuntimeError
    end
  else RuntimeError.

End QueryClaudeJson.
Arguments extract_json {J} json_loads text.

(** * Properties *)

(** ** Checking a property on an interval of integers *)

Lemma Z_range_In (lo z : Z) (n : nat) :
  lo <= z < lo + Z.of_nat n -> In z (Z_range lo n).
Proof.
  intros Hz. unfold Z_range. apply in_map_iff.
  exists (Z.to_nat (z - lo)). split; [lia|].
  apply in_seq. lia.
Qed.

Lemma Z_range_forallb (P : Z -> bool) (lo : Z) (n : nat) :
  forallb P (Z_range lo n) = true ->
  forall z, lo <= z < lo + Z.of_nat n -> P z = true.
Proof.
  intros Hall z Hz. rewrite forallb_forall in Hall.
  apply Hall, Z_range_In, Hz.
Qed.

(** ** Bounds on what a lookup returns *)

Lemma dict_find_all {V : Type} (P : V -> bool) (d : dict V) (q : Q) (v : V) :
  dict_all P d = true -> dict_find d q = Some v -> P v = true.
Proof.
  induction d as [|[k w] d IH]; simpl; [discriminate|].
  intros Hall Hfind. apply andb_prop in Hall as [Hw Hd].
  destruct (Qeq_bool k q).
  - injection Hfind as <-. exact Hw.
  - auto.
Qed.

Lemma dict_get_all {V : Type} (P : V -> bool) (d : dict V) (key : pynum) (dflt : V) :
  dict_all P d = true -> P dflt = true -> P (dict_get d key dflt) = true.
Proof.
  intros Hall Hdflt. destruct key as [q| |]; simpl; try exact Hdflt.
  destruct (dict_find d q) as [v|] eqn:Hfind; [|exact Hdflt].
  eapply dict_find_all; eauto.
Qed.

(** The same for a two-axis table read as [T.get(r, {}).get(c, dflt)]. *)
Lemma dict_get2_all {V : Type} (P : V -> bool) (T : dict (dict V))
    (r c : pynum) (dflt : V) :
  dict_all (dict_all P) T = true -> P dflt = true ->
  P (dict_get (dict_get T r []) c dflt) = true.
Proof.
  intros HT Hdflt. apply dict_get_all; [|exact Hdflt].
  apply (dict_get_all (dict_all P)); [exact HT|reflexivity].
Qed.

Lemma between_spec (lo hi z : Z) : between lo hi z = true <-> lo <= z <= hi.
Proof. unfold between. rewrite andb_true_iff, !Z.leb_le. tauto. Qed.

(** What [lookup_points] returns, field by field, once the five [int()]
    conversions have succeeded. *)
Lemma lookup_points_inv (g : globals) (ratings : gmap string pynum)
    (sz : pynum) (b : breakdown) :
  lookup_points g ratings sz = Ok b ->
  exists i sc c n k : Z,
    py_int (ratings_get ratings "impact" (Num 1)) = Ok i /\
    py_int sz = Ok sc /\
    py_int (ratings_get ratings "communication" (Num 1)) = Ok c /\
    py_int (ratings_get ratings "innovation" (Num 1)) = Ok n /\
    py_int (ratings_get ratings "knowledge" (Num 1)) = Ok k /\
    intermediate_value b =
      dict_get (dict_get (IMPACT_CONTRIBUTION_TABLE g) (Num (inject_Z i)) [])
               (ratings_get ratings "contribution" (Num 1)) 1%Q /\
    impact_contribution_size b =
      dict_get (dict_get (IMPACT_SIZE_TABLE g) (Num (intermediate_value b)) [])
               (Num (inject_Z sc)) 0 /\
    communication_frame b =
      dict_get (dict_get (COMMUNICATION_FRAME_TABLE g) (Num (inject_Z c)) [])
               (ratings_get ratings "frame" (Num 1)) 0 /\
    innovation_complexity b =
      dict_get (dict_get (INNOVATION_COMPLEXITY_TABLE g) (Num (inject_Z n)) [])
               (ratings_get ratings "complexity" (Num 1)) 0 /\
    knowledge_teams b =
      dict_get (dict_get (KNOWLEDGE_TEAMS_TABLE g) (Num (inject_Z k)) [])
               (ratings_get ratings "teams" (Num 1)) 0 /\
    breadth b =
      dict_get (BREADTH_TABLE g) (ratings_get ratings "breadth" (Num 1)) 0 /\
    size b = sz /\
    total b =
      impact_contribution_size b + communication_frame b +
      innovation_complexity b + knowledge_teams b + breadth b.
Proof.
  unfold lookup_points. intros H.
  destruct (py_int (ratings_get ratings "impact" _)) as [i|]; [|discriminate].
  destruct (py_int sz) as [sc|]; [|discriminate].
  destruct (py_int (ratings_get ratings "communication" _)) as [c|]; [|discriminate].
  destruct (py_int (ratings_get ratings "innovation" _)) as [n|]; [|discriminate].
  destruct (py_int (ratings_get ratings "knowledge" _)) as [k|]; [|discriminate].
  simpl in H. injection H as <-.
  exists i, sc, c, n, k. cbn. repeat split; reflexivity.
Qed.

(** Conversely the lookups cannot fail once the conversions succeed. *)
Lemma lookup_points_defined (g : globals) (ratings : gmap string pynum)
    (sz : pynum) (i sc c n k : Z) :
  py_int (ratings_get ratings "impact" (Num 1)) = Ok i ->
  py_int sz = Ok sc ->
  py_int (ratings_get ratings "communication" (Num 1)) = Ok c ->
  py_int (ratings_get ratings "innovation" (Num 1)) = Ok n ->
  py_int (ratings_get ratings "knowledge" (Num 1)) = Ok k ->
  exists b, lookup_points g ratings sz = Ok b.
Proof.
  intros Hi Hsc Hc Hn Hk. unfold lookup_points.
  rewrite Hi, Hsc, Hc, Hn, Hk. simpl. eexists. reflexivity.
Qed.

Lemma lookup_points_total_bounds (ratings : gmap string pynum) (sz : pynum)
    (b : breakdown) :
  lookup_points module_globals ratings sz = Ok b -> 0 <= total b <= max_total.
Proof.
  intros H. apply lookup_points_inv in H
    as (i & sc & c & n & k & _ & _ & _ & _ & _ & _ & Ha & Hb & Hc & Hd & He & _ & Ht).
  assert (0 <= impact_contribution_size b <= 347)
    by (rewrite Ha; apply between_spec, dict_get2_all; vm_compute; reflexivity).
  assert (0 <= communication_frame b <= 95)
    by (rewrite Hb; apply between_spec, dict_get2_all; vm_compute; reflexivity).
  assert (0 <= innovation_complexity b <= 140)
    by (rewrite Hc; apply between_spec, dict_get2_all; vm_compute; reflexivity).
  assert (0 <= knowledge_teams b <= 240)
    by (rewrite Hd; apply between_spec, dict_get2_all; vm_compute; reflexivity).
  assert (0 <= breadth b <= 20)
    by (rewrite He; apply between_spec, dict_get_all; vm_compute; reflexivity).
  unfold max_total. lia.
Qed.

(** ** The banding formula in binary64 agrees with the integer formula *)

Lemma banding_agrees_all : forallb banding_agrees (Z_range 27 816) = true.
Proof. vm_compute. reflexivity. Qed.

Lemma ipe_of_total_banding (t : Z) :
  26 < t <= max_total -> ipe_of_total t = Ok (Some ((t - 26) / 25 + 40)).
Proof.
  intros Ht.
  assert (Hok : banding_agrees t = true).
  { apply (Z_range_forallb _ _ _ banding_agrees_all).
    unfold max_total in Ht. lia. }
  unfold banding_agrees in Hok.
  destruct (ipe_of_total t) as [[s|]|]; try discriminate.
  apply Z.eqb_eq in Hok. rewrite Hok. reflexivity.
Qed.

Lemma ipe_of_total_no_score (t : Z) : t <= 26 -> ipe_of_total t = Ok None.
Proof.
  intros Ht. unfold ipe_of_total.
  destruct (Z.gtb_spec t 26); [lia|reflexivity].
Qed.

(** ** Score banding *)

(** C1: whenever the lookups produce a total above 26, the engine returns
    the score [floor((total - 26) / 25) + 40] together with the breakdown. *)
Theorem score_is_banding_formula (ratings : gmap string pynum) (sz : pynum)
    (b : breakdown) :
  lookup_points module_globals ratings sz = Ok b ->
  26 < total b ->
  calculate_ipe_score module_globals ratings sz =
    Ok (Some ((total b - 26) / 25 + 40), b).
Proof.
  intros Hb Ht. unfold calculate_ipe_score. rewrite Hb. simpl.
  pose proof (lookup_points_total_bounds _ _ _ Hb) as Hbound.
  rewrite ipe_of_total_banding by lia. reflexivity.
Qed.

(** A total of exactly 27 yields score 40. *)
Lemma score_is_banding_formula_witness :
  calculate_ipe_score module_globals scenario_27 (Num 1) =
    Ok (Some 40, breakdown_27).
Proof.
  apply (score_is_banding_formula scenario_27 (Num 1) breakdown_27).
  - vm_compute. reflexivity.
  - vm_compute. reflexivity.
Defined.

(** C2: whenever the lookups produce a total of 26 or less, the engine
    returns [None] as the score (with the breakdown); it does not raise. *)
Theorem no_score_at_or_below_offset (ratings : gmap string pynum) (sz : pynum)
    (b : breakdown) :
  lookup_points module_globals ratings sz = Ok b ->
  total b <= 26 ->
  calculate_ipe_score module_globals ratings sz = Ok (None, b).
Proof.
  intros Hb Ht. unfold calculate_ipe_score. rewrite Hb. simpl.
  rewrite ipe_of_total_no_score by exact Ht. reflexivity.
Qed.

Lemma no_score_at_or_below_offset_witness :
  calculate_ipe_score module_globals scenario_no_score (Num 1) =
    Ok (None, breakdown_no_score).
Proof.
  apply (no_score_at_or_below_offset scenario_no_score (Num 1) breakdown_no_score).
  - vm_compute. reflexivity.
  - vm_compute. discriminate.
Defined.

(** The boundary of the banding step itself. *)
Example ipe_of_total_26 : ipe_of_total 26 = Ok None.
Proof. reflexivity. Qed.

Example ipe_of_total_27 : ipe_of_total 27 = Ok (Some 40).
Proof. vm_compute. reflexivity. Qed.

(** C10: a score that is not [None] is at least 40, hence never falsy. *)
Theorem defined_score_at_least_40 (ratings : gmap string pynum) (sz : pynum)
    (s : Z) (b : breakdown) :
  calculate_ipe_score module_globals ratings sz = Ok (Some s, b) ->
  40 <= s /\ s <> 0.
Proof.
  unfold calculate_ipe_score. intros H.
  destruct (lookup_points module_globals ratings sz) as [b'|] eqn:Hb;
    [|discriminate].
  simpl in H.
  pose proof (lookup_points_total_bounds _ _ _ Hb) as Hbound.
  destruct (Z_le_gt_dec (total b') 26) as [Hle|Hgt].
  - rewrite ipe_of_total_no_score in H by exact Hle. discriminate.
  - rewrite ipe_of_total_banding in H by lia. simpl in H.
    injection H as <- <-.
    assert (0 <= (total b' - 26) / 25) by (apply Z.div_pos; lia).
    lia.
Qed.

Lemma defined_score_at_least_40_witness : 40 <= 41 /\ 41 <> 0.
Proof.
  eapply (defined_score_at_least_40 scenario_low (Num 7)).
  vm_compute. reflexivity.
Defined.

(** ** Level mapping *)

Lemma one_band_and_its_level_all :
  forallb one_band_and_its_level (Z_range 40 34) = true.
Proof. vm_compute. reflexivity. Qed.

(** C4: a score in [40,73] lies in exactly one band and [score_to_level]
    returns the level of that band; any other score gives level 1. *)
Theorem score_to_level_bands (s : Z) :
  (40 <= s <= 73 ->
   exists lo hi level,
     filter (in_band s) (IPE_LEVEL_MAPPING module_globals) = [(lo, hi, level)] /\
     score_to_level module_globals s = level) /\
  (s < 40 \/ 73 < s -> score_to_level module_globals s = 1).
Proof.
  split.
  - intros Hs.
    assert (Hok : one_band_and_its_level s = true)
      by (apply (Z_range_forallb _ _ _ one_band_and_its_level_all); simpl; lia).
    unfold one_band_and_its_level in Hok.
    destruct (filter _ _) as [|[[lo hi] level] [|]]; try discriminate.
    exists lo, hi, level. split; [reflexivity|]. apply Z.eqb_eq, Hok.
  - intros Hs. unfold score_to_level. cbn.
    repeat match goal with
    | |- context [?a <=? ?b] => destruct (Z.leb_spec a b); cbn; try lia
    end.
Qed.

Lemma score_to_level_bands_witness :
  (exists lo hi level,
     filter (in_band 58) (IPE_LEVEL_MAPPING module_globals) = [(lo, hi, level)] /\
     score_to_level module_globals 58 = level) /\
  score_to_level module_globals 74 = 1 /\
  score_to_level module_globals 39 = 1.
Proof.
  split; [|split].
  - apply (score_to_level_bands 58). lia.
  - apply (score_to_level_bands 74). lia.
  - apply (score_to_level_bands 39). lia.
Defined.

(** ** The worked scenario *)

(** C6: the second scenario of the specification, value by value. *)
Theorem scenario_high_evaluation :
  calculate_ipe_score module_globals scenario_high (Num 8) =
    Ok (Some 58,
        {| impact_contribution_size := 198;
           intermediate_value := 13;
           communication_frame := 65;
           innovation_complexity := 55;
           knowledge_teams := 161;
           breadth := 15;
           size := Num 8;
           total := 494 |}) /\
  198 + 65 + 55 + 161 + 15 = 494 /\
  score_to_level module_globals 58 = 9.
Proof. vm_compute. repeat split; reflexivity. Qed.

(** ** Keys of the lookups *)

Lemma py_int_integer_part (q : Q) : py_int (Num q) = Ok (integer_part q).
Proof.
  destruct q as [n d]. unfold py_int, integer_part, Qle_bool, Qceiling, Qfloor.
  cbn [Qnum Qden Qopp]. f_equal.
  destruct (Z.leb_spec (0 * Zpos d) (n * 1)) as [Hn|Hn].
  - apply Z.quot_div_nonneg; lia.
  - replace n with (- - n) at 1 by lia.
    rewrite Z.quot_opp_l by lia.
    rewrite Z.quot_div_nonneg by lia. reflexivity.
Qed.

Lemma integer_part_proper (q q' : Q) : q == q' -> integer_part q = integer_part q'.
Proof.
  intros H. unfold integer_part.
  rewrite (Qleb_comp 0%Q 0%Q (Qeq_refl 0%Q) q q' H).
  rewrite (Qfloor_comp q q' H), (Qceiling_comp q q' H). reflexivity.
Qed.

(** Truncation, not rounding: the row of a non-negative rating is the
    integer just below or at it. *)
Lemma integer_part_below (q : Q) :
  (0 <= q)%Q ->
  (inject_Z (integer_part q) <= q)%Q /\ (q < inject_Z (integer_part q + 1))%Q.
Proof.
  intros Hq. unfold integer_part.
  apply Qle_bool_iff in Hq. rewrite Hq.
  split; [apply Qfloor_le|apply Qlt_floor].
Qed.

Lemma dict_find_proper {V : Type} (d : dict V) (q q' : Q) :
  q == q' -> dict_find d q = dict_find d q'.
Proof.
  intros H. induction d as [|[k v] d IH]; simpl; [reflexivity|].
  rewrite (Qeqb_comp k k (Qeq_refl k) q q' H), IH. reflexivity.
Qed.

(** [T.get(r, {}).get(c, dflt)] is the entry at [(r, c)], or [dflt]. *)
Lemma dict_get2_entry {V : Type} (T : dict (dict V)) (r : Q) (c : pynum) (dflt : V) :
  dict_get (dict_get T (Num r) []) c dflt =
    match table_entry T r c with Some v => v | None => dflt end.
Proof.
  unfold table_entry, dict_get.
  destruct (dict_find T r) as [rw|]; destruct c as [q| |]; reflexivity.
Qed.

Lemma dict_get_entry {V : Type} (T : dict V) (k : pynum) (dflt : V) :
  dict_get T k dflt = match axis_entry T k with Some v => v | None => dflt end.
Proof. destruct k; reflexivity. Qed.

Lemma ratings_get_Some (ratings : gmap string pynum) (name : string)
    (v dflt : pynum) :
  ratings !! name = Some v -> ratings_get ratings name dflt = v.
Proof. intros H. unfold ratings_get. rewrite H. reflexivity. Qed.

(** C8: in Communication x Frame, Innovation x Complexity and
    Knowledge x Teams (and in the intermediate Impact x Contribution lookup)
    the row is the integer part of the first rating and the column is the
    second rating as given; Impact x Size is read at the row of the
    intermediate value and the column of the integer part of the size.  The
    integer part is a truncation. *)
Theorem lookup_keys (g : globals) (ratings : gmap string pynum) (sz : pynum)
    (imp com inn kno sq : Q) (con fra cpx tea : pynum) :
  ratings !! "impact" = Some (Num imp) ->
  ratings !! "contribution" = Some con ->
  ratings !! "communication" = Some (Num com) ->
  ratings !! "frame" = Some fra ->
  ratings !! "innovation" = Some (Num inn) ->
  ratings !! "complexity" = Some cpx ->
  ratings !! "knowledge" = Some (Num kno) ->
  ratings !! "teams" = Some tea ->
  sz = Num sq ->
  (exists b, lookup_points g ratings sz = Ok b /\
     intermediate_value b =
       default 1%Q (table_entry (IMPACT_CONTRIBUTION_TABLE g)
                      (inject_Z (integer_part imp)) con) /\
     impact_contribution_size b =
       default 0 (table_entry (IMPACT_SIZE_TABLE g)
                    (intermediate_value b) (Num (inject_Z (integer_part sq)))) /\
     communication_frame b =
       default 0 (table_entry (COMMUNICATION_FRAME_TABLE g)
                    (inject_Z (integer_part com)) fra) /\
     innovation_complexity b =
       default 0 (table_entry (INNOVATION_COMPLEXITY_TABLE g)
                    (inject_Z (integer_part inn)) cpx) /\
     knowledge_teams b =
       default 0 (table_entry (KNOWLEDGE_TEAMS_TABLE g)
                    (inject_Z (integer_part kno)) tea)) /\
  (forall x : Q, (0 <= x)%Q ->
     (inject_Z (integer_part x) <= x)%Q /\ (x < inject_Z (integer_part x + 1))%Q).
Proof.
  intros Himp Hcon Hcom Hfra Hinn Hcpx Hkno Htea ->.
  split; [|exact integer_part_below].
  assert (Hi : py_int (ratings_get ratings "impact" (Num 1)) = Ok (integer_part imp))
    by (rewrite (ratings_get_Some _ _ _ _ Himp); apply py_int_integer_part).
  assert (Hc : py_int (ratings_get ratings "communication" (Num 1)) = Ok (integer_part com))
    by (rewrite (ratings_get_Some _ _ _ _ Hcom); apply py_int_integer_part).
  assert (Hn : py_int (ratings_get ratings "innovation" (Num 1)) = Ok (integer_part inn))
    by (rewrite (ratings_get_Some _ _ _ _ Hinn); apply py_int_integer_part).
  assert (Hk : py_int (ratings_get ratings "knowledge" (Num 1)) = Ok (integer_part kno))
    by (rewrite (ratings_get_Some _ _ _ _ Hkno); apply py_int_integer_part).
  pose proof (py_int_integer_part sq) as Hs.
  destruct (lookup_points_defined g ratings (Num sq) _ _ _ _ _ Hi Hs Hc Hn Hk)
    as [b Hb].
  exists b. split; [exact Hb|].
  apply lookup_points_inv in Hb
    as (i & sc & c & n & k & Hi' & Hs' & Hc' & Hn' & Hk'
        & Hiv & Hics & Hcf & Hic & Hkt & _).
  rewrite Hi in Hi'. rewrite Hs in Hs'. rewrite Hc in Hc'.
  rewrite Hn in Hn'. rewrite Hk in Hk'.
  injection Hi' as <-. injection Hs' as <-. injection Hc' as <-.
  injection Hn' as <-. injection Hk' as <-.
  rewrite (ratings_get_Some _ _ _ _ Hcon) in Hiv.
  rewrite (ratings_get_Some _ _ _ _ Hfra) in Hcf.
  rewrite (ratings_get_Some _ _ _ _ Hcpx) in Hic.
  rewrite (ratings_get_Some _ _ _ _ Htea) in Hkt.
  rewrite dict_get2_entry in Hiv. rewrite dict_get2_entry in Hics.
  rewrite dict_get2_entry in Hcf. rewrite dict_get2_entry in Hic.
  rewrite dict_get2_entry in Hkt.
  repeat split; assumption.
Qed.

(** Communication 3.5 reads row 3, knowledge 6.5 row 6, size 8.5 column 8. *)
Lemma lookup_keys_witness :
  (exists b, lookup_points module_globals scenario_half_steps (Num 8.5) = Ok b /\
     intermediate_value b =
       default 1%Q (table_entry (IMPACT_CONTRIBUTION_TABLE module_globals)
                      (inject_Z 4) (Num 4.5)) /\
     impact_contribution_size b =
       default 0 (table_entry (IMPACT_SIZE_TABLE module_globals)
                    (intermediate_value b) (Num (inject_Z 8))) /\
     communication_frame b =
       default 0 (table_entry (COMMUNICATION_FRAME_TABLE module_globals)
                    (inject_Z 3) (Num 3)) /\
     innovation_complexity b =
       default 0 (table_entry (INNOVATION_COMPLEXITY_TABLE module_globals)
                    (inject_Z 4) (Num 3)) /\
     knowledge_teams b =
       default 0 (table_entry (KNOWLEDGE_TEAMS_TABLE module_globals)
                    (inject_Z 6) (Num 2.5))) /\
  (forall x : Q, (0 <= x)%Q ->
     (inject_Z (integer_part x) <= x)%Q /\ (x < inject_Z (integer_part x + 1))%Q).
Proof.
  apply (lookup_keys module_globals scenario_half_steps (Num 8.5)
           4 3.5 4.5 6.5 8.5 (Num 4.5) (Num 3) (Num 3) (Num 2.5));
    reflexivity.
Defined.

(** ** Missing table entries and malformed ratings *)

(** With the module's tables the banding step never raises. *)
Lemma calculate_ipe_score_defined (ratings : gmap string pynum) (sz : pynum)
    (b : breakdown) :
  lookup_points module_globals ratings sz = Ok b ->
  exists s, calculate_ipe_score module_globals ratings sz = Ok (s, b).
Proof.
  intros Hb. unfold calculate_ipe_score. rewrite Hb. simpl.
  pose proof (lookup_points_total_bounds _ _ _ Hb) as Hbound.
  destruct (Z_le_gt_dec (total b) 26) as [Hle|Hgt].
  - rewrite ipe_of_total_no_score by exact Hle. eexists. reflexivity.
  - rewrite ipe_of_total_banding by lia. eexists. reflexivity.
Qed.

(** C3, as the code has it: once the [int()] conversions have succeeded the
    evaluation returns, whatever entries the tables lack; a pair absent from
    Impact x Size, Communication x Frame, Innovation x Complexity,
    Knowledge x Teams or Breadth gives 0 points, and a pair absent from
    Impact x Contribution gives the intermediate value 1. *)
Theorem lookup_miss_defaults (ratings : gmap string pynum) (sz : pynum)
    (i sc c n k : Z) :
  py_int (ratings_get ratings "impact" (Num 1)) = Ok i ->
  py_int sz = Ok sc ->
  py_int (ratings_get ratings "communication" (Num 1)) = Ok c ->
  py_int (ratings_get ratings "innovation" (Num 1)) = Ok n ->
  py_int (ratings_get ratings "knowledge" (Num 1)) = Ok k ->
  exists s b,
    calculate_ipe_score module_globals ratings sz = Ok (s, b) /\
    (table_entry (IMPACT_CONTRIBUTION_TABLE module_globals) (inject_Z i)
       (ratings_get ratings "contribution" (Num 1)) = None ->
     intermediate_value b = 1%Q) /\
    (table_entry (IMPACT_SIZE_TABLE module_globals) (intermediate_value b)
       (Num (inject_Z sc)) = None ->
     impact_contribution_size b = 0) /\
    (table_entry (COMMUNICATION_FRAME_TABLE module_globals) (inject_Z c)
       (ratings_get ratings "frame" (Num 1)) = None ->
     communication_frame b = 0) /\
    (table_entry (INNOVATION_COMPLEXITY_TABLE module_globals) (inject_Z n)
       (ratings_get ratings "complexity" (Num 1)) = None ->
     innovation_complexity b = 0) /\
    (table_entry (KNOWLEDGE_TEAMS_TABLE module_globals) (inject_Z k)
       (ratings_get ratings "teams" (Num 1)) = None ->
     knowledge_teams b = 0) /\
    (axis_entry (BREADTH_TABLE module_globals)
       (ratings_get ratings "breadth" (Num 1)) = None ->
     breadth b = 0).
Proof.
  intros Hi Hs Hc Hn Hk.
  destruct (lookup_points_defined module_globals ratings sz _ _ _ _ _
              Hi Hs Hc Hn Hk) as [b Hb].
  destruct (calculate_ipe_score_defined _ _ _ Hb) as [s Hcalc].
  exists s, b. split; [exact Hcalc|].
  apply lookup_points_inv in Hb
    as (i' & sc' & c' & n' & k' & Hi' & Hs' & Hc' & Hn' & Hk'
        & Hiv & Hics & Hcf & Hic & Hkt & Hbr & _).
  rewrite Hi in Hi'. rewrite Hs in Hs'. rewrite Hc in Hc'.
  rewrite Hn in Hn'. rewrite Hk in Hk'.
  injection Hi' as <-. injection Hs' as <-. injection Hc' as <-.
  injection Hn' as <-. injection Hk' as <-.
  rewrite dict_get2_entry in Hiv. rewrite dict_get2_entry in Hics.
  rewrite dict_get2_entry in Hcf. rewrite dict_get2_entry in Hic.
  rewrite dict_get2_entry in Hkt. rewrite dict_get_entry in Hbr.
  repeat split; intros Hnone.
  - rewrite Hiv, Hnone. reflexivity.
  - rewrite Hics, Hnone. reflexivity.
  - rewrite Hcf, Hnone. reflexivity.
  - rewrite Hic, Hnone. reflexivity.
  - rewrite Hkt, Hnone. reflexivity.
  - rewrite Hbr, Hnone. reflexivity.
Qed.

(** Every lookup but the one on Impact x Size misses here. *)
Lemma lookup_miss_defaults_witness :
  exists s b,
    calculate_ipe_score module_globals scenario_misses (Num 1) = Ok (s, b) /\
    (table_entry (IMPACT_CONTRIBUTION_TABLE module_globals) (inject_Z 9)
       (Num 1) = None -> intermediate_value b = 1%Q) /\
    (table_entry (IMPACT_SIZE_TABLE module_globals) (intermediate_value b)
       (Num (inject_Z 1)) = None -> impact_contribution_size b = 0) /\
    (table_entry (COMMUNICATION_FRAME_TABLE module_globals) (inject_Z 1)
       (Num 9) = None -> communication_frame b = 0) /\
    (table_entry (INNOVATION_COMPLEXITY_TABLE module_globals) (inject_Z 1)
       (Num 9) = None -> innovation_complexity b = 0) /\
    (table_entry (KNOWLEDGE_TEAMS_TABLE module_globals) (inject_Z 1)
       (Num 9) = None -> knowledge_teams b = 0) /\
    (axis_entry (BREADTH_TABLE module_globals) (Num 9) = None -> breadth b = 0).
Proof.
  exact (lookup_miss_defaults scenario_misses (Num 1) 9 1 1 1 1
           eq_refl eq_refl eq_refl eq_refl eq_refl).
Defined.

(** C3 as stated fails on the intermediate lookup: the pair (9, 1) is absent
    from Impact x Contribution, and the lookup yields 1, not 0; Impact x Size
    is then read at row 1 and the component gets 5 points. *)
Lemma intermediate_miss_not_zero :
  table_entry (IMPACT_CONTRIBUTION_TABLE module_globals) (inject_Z 9) (Num 1)
    = None /\
  lookup_points module_globals scenario_impact_9 (Num 1) = Ok breakdown_impact_9 /\
  ~ (intermediate_value breakdown_impact_9 == 0)%Q /\
  impact_contribution_size breakdown_impact_9 <> 0.
Proof.
  split; [reflexivity|]. split; [vm_compute; reflexivity|].
  split; [|discriminate]. intros H. discriminate H.
Qed.

Lemma ratings_get_insert_default (ratings : gmap string pynum)
    (d name : string) :
  ratings !! d = None ->
  ratings_get (<[d := Num 1]> ratings) name (Num 1) =
    ratings_get ratings name (Num 1).
Proof.
  intros Hd. unfold ratings_get.
  destruct (decide (d = name)) as [->|Hne].
  - rewrite lookup_insert_eq, Hd. reflexivity.
  - rewrite lookup_insert_ne by exact Hne. reflexivity.
Qed.

Lemma py_int_finite (x : pynum) : finite x -> exists z, py_int x = Ok z.
Proof. intros [q ->]. eexists. reflexivity. Qed.

(** C5, as the code has it: a malformed ratings dict is not rejected.  With
    finite numbers for the size and for the impact, communication, innovation
    and knowledge ratings (present or not, in their allowed sets or not) the
    engine returns a result, and a dimension that is missing is scored as if
    it were rated 1. *)
Theorem malformed_ratings_not_rejected (ratings : gmap string pynum)
    (sz : pynum) :
  finite sz ->
  finite (ratings_get ratings "impact" (Num 1)) ->
  finite (ratings_get ratings "communication" (Num 1)) ->
  finite (ratings_get ratings "innovation" (Num 1)) ->
  finite (ratings_get ratings "knowledge" (Num 1)) ->
  (exists s b, calculate_ipe_score module_globals ratings sz = Ok (s, b)) /\
  (forall d, ratings !! d = None ->
     calculate_ipe_score module_globals (<[d := Num 1]> ratings) sz =
       calculate_ipe_score module_globals ratings sz).
Proof.
  intros Hs Hi Hc Hn Hk. split.
  - apply py_int_finite in Hs as [sc Hs]. apply py_int_finite in Hi as [i Hi].
    apply py_int_finite in Hc as [c Hc]. apply py_int_finite in Hn as [n Hn].
    apply py_int_finite in Hk as [k Hk].
    destruct (lookup_points_defined module_globals ratings sz _ _ _ _ _
                Hi Hs Hc Hn Hk) as [b Hb].
    destruct (calculate_ipe_score_defined _ _ _ Hb) as [s Hcalc].
    exists s, b. exact Hcalc.
  - intros d Hd. unfold calculate_ipe_score, lookup_points.
    rewrite !(ratings_get_insert_default ratings d) by exact Hd.
    reflexivity.
Qed.

(** A dict with impact 9, outside 1..5, and the eight other keys missing:
    it is scored, and scored as if the missing frame were rated 1. *)
Lemma malformed_ratings_not_rejected_witness :
  (exists s b,
     calculate_ipe_score module_globals scenario_impact_9 (Num 1) = Ok (s, b)) /\
  calculate_ipe_score module_globals (<["frame" := Num 1]> scenario_impact_9)
    (Num 1) =
    calculate_ipe_score module_globals scenario_impact_9 (Num 1).
Proof.
  assert (H : (exists s b,
                 calculate_ipe_score module_globals scenario_impact_9 (Num 1)
                   = Ok (s, b)) /\
              (forall d, scenario_impact_9 !! d = None ->
                 calculate_ipe_score module_globals
                   (<[d := Num 1]> scenario_impact_9) (Num 1) =
                   calculate_ipe_score module_globals scenario_impact_9 (Num 1)))
    by (apply (malformed_ratings_not_rejected scenario_impact_9 (Num 1));
        eexists; reflexivity).
  destruct H as [H1 H2]. split; [exact H1|]. apply H2. reflexivity.
Defined.

(** C5 as stated fails: the empty ratings dict (all nine keys missing) and a
    dict whose impact is 9 (outside 1..5) both get score 40, with no error. *)
Lemma malformed_ratings_scored :
  calculate_ipe_score module_globals ∅ (Num 7) = Ok (Some 40, breakdown_empty) /\
  calculate_ipe_score module_globals scenario_impact_9 (Num 1) =
    Ok (Some 40, breakdown_impact_9).
Proof. split; vm_compute; reflexivity. Qed.

(** ** Repeated calls *)



(** ** Monotonicity of the components *)

Lemma monotone_in_first_sound (f : Q -> Q -> Z) (rows cols : list Q) :
  (forall a a' c c', a == a' -> c == c' -> f a c = f a' c') ->
  monotone_in_first f rows cols = true ->
  forall q q' c, next_step rows q q' -> is_step c cols -> f q c <= f q' c.
Proof.
  intros Hf Hall q q' c (s & s' & Hin & Hq & Hq') (t & Ht & Hc).
  unfold monotone_in_first in Hall. rewrite forallb_forall in Hall.
  specialize (Hall _ Hin). rewrite forallb_forall in Hall.
  specialize (Hall _ Ht). apply Z.leb_le in Hall. simpl in Hall.
  rewrite (Hf q s c t Hq Hc), (Hf q' s' c t Hq' Hc). exact Hall.
Qed.

Lemma monotone_in_second_sound (f : Q -> Q -> Z) (rows cols : list Q) :
  (forall a a' c c', a == a' -> c == c' -> f a c = f a' c') ->
  monotone_in_second f rows cols = true ->
  forall r q q', is_step r rows -> next_step cols q q' -> f r q <= f r q'.
Proof.
  intros Hf Hall r q q' (t & Ht & Hr) (s & s' & Hin & Hq & Hq').
  unfold monotone_in_second in Hall. rewrite forallb_forall in Hall.
  specialize (Hall _ Ht). rewrite forallb_forall in Hall.
  specialize (Hall _ Hin). apply Z.leb_le in Hall. simpl in Hall.
  rewrite (Hf r t q s Hr Hq), (Hf r t q' s' Hr Hq'). exact Hall.
Qed.

Lemma dict_get_proper {V : Type} (d : dict V) (q q' : Q) (dflt : V) :
  q == q' -> dict_get d (Num q) dflt = dict_get d (Num q') dflt.
Proof. intros H. unfold dict_get. rewrite (dict_find_proper d q q' H). reflexivity. Qed.

Lemma two_axis_points_proper (T : dict (dict Z)) (a a' c c' : Q) :
  a == a' -> c == c' -> two_axis_points T a c = two_axis_points T a' c'.
Proof.
  intros Ha Hc. unfold two_axis_points.
  rewrite (integer_part_proper a a' Ha). apply dict_get_proper, Hc.
Qed.

Lemma impact_size_points_proper (g : globals) (sc : Z) (a a' c c' : Q) :
  a == a' -> c == c' ->
  impact_size_points g sc a c = impact_size_points g sc a' c'.
Proof.
  intros Ha Hc. unfold impact_size_points.
  rewrite (integer_part_proper a a' Ha).
  rewrite (dict_get_proper _ c c' _ Hc). reflexivity.
Qed.

Lemma breadth_points_proper (g : globals) (a a' : Q) :
  a == a' -> breadth_points g a = breadth_points g a'.
Proof. intros Ha. apply dict_get_proper, Ha. Qed.

Lemma size_keys_only_find (r : dict Z) (sc : Z) :
  size_keys_only r = true -> sc < 1 \/ 13 < sc ->
  dict_find r (inject_Z sc) = None.
Proof.
  intros Hr Hsc. induction r as [|[k v] r IH]; simpl; [reflexivity|].
  simpl in Hr. apply andb_prop in Hr as [Hk Hr].
  apply andb_prop in Hk as [Hlo Hhi].
  apply Qle_bool_iff in Hlo, Hhi.
  destruct (Qeq_bool k (inject_Z sc)) eqn:E; [|apply IH, Hr].
  apply Qeq_bool_eq in E. rewrite E in Hlo, Hhi.
  change 1%Q with (inject_Z 1) in Hlo. change 13%Q with (inject_Z 13) in Hhi.
  rewrite <- Zle_Qle in Hlo, Hhi. lia.
Qed.

(** A size whose integer part is no column of Impact x Size gives 0 points
    whatever the ratings. *)
Lemma impact_size_points_out_of_range (sc : Z) (imp con : Q) :
  sc < 1 \/ 13 < sc -> impact_size_points module_globals sc imp con = 0.
Proof.
  intros Hsc. unfold impact_size_points.
  match goal with |- dict_get ?r _ _ = _ =>
    assert (Hr : size_keys_only r = true)
      by (apply (dict_get_all size_keys_only); vm_compute; reflexivity);
    generalize dependent r
  end.
  intros r Hr. unfold dict_get.
  rewrite (size_keys_only_find r sc Hr Hsc). reflexivity.
Qed.

Lemma impact_size_monotone_all :
  forallb impact_size_monotone (Z_range 1 13) = true.
Proof. vm_compute. reflexivity. Qed.

Lemma impact_size_monotone_at (sc : Z) :
  1 <= sc <= 13 ->
  monotone_in_first (impact_size_points module_globals sc)
    impact_steps contribution_steps = true /\
  monotone_in_second (impact_size_points module_globals sc)
    impact_steps contribution_steps = true.
Proof.
  intros Hsc. apply andb_prop.
  apply (Z_range_forallb _ _ _ impact_size_monotone_all). simpl. lia.
Qed.

Lemma impact_size_mono_impact (sc : Z) (q q' c : Q) :
  next_step impact_steps q q' -> is_step c contribution_steps ->
  impact_size_points module_globals sc q c <=
    impact_size_points module_globals sc q' c.
Proof.
  intros Hq Hc.
  destruct (Z_lt_ge_dec sc 1) as [Hlo|Hlo];
    [rewrite !impact_size_points_out_of_range by lia; lia|].
  destruct (Z_lt_ge_dec 13 sc) as [Hhi|Hhi];
    [rewrite !impact_size_points_out_of_range by lia; lia|].
  destruct (impact_size_monotone_at sc ltac:(lia)) as [H1 _].
  apply (monotone_in_first_sound _ _ _
           (impact_size_points_proper module_globals sc) H1); assumption.
Qed.

Lemma impact_size_mono_contribution (sc : Z) (r q q' : Q) :
  is_step r impact_steps -> next_step contribution_steps q q' ->
  impact_size_points module_globals sc r q <=
    impact_size_points module_globals sc r q'.
Proof.
  intros Hr Hq.
  destruct (Z_lt_ge_dec sc 1) as [Hlo|Hlo];
    [rewrite !impact_size_points_out_of_range by lia; lia|].
  destruct (Z_lt_ge_dec 13 sc) as [Hhi|Hhi];
    [rewrite !impact_size_points_out_of_range by lia; lia|].
  destruct (impact_size_monotone_at sc ltac:(lia)) as [_ H2].
  apply (monotone_in_second_sound _ _ _
           (impact_size_points_proper module_globals sc) H2); assumption.
Qed.

Lemma communication_frame_mono :
  monotone_in_first (two_axis_points (COMMUNICATION_FRAME_TABLE module_globals))
    communication_steps frame_steps = true /\
  monotone_in_second (two_axis_points (COMMUNICATION_FRAME_TABLE module_globals))
    communication_steps frame_steps = true.
Proof. split; vm_compute; reflexivity. Qed.

Lemma innovation_complexity_mono :
  monotone_in_first (two_axis_points (INNOVATION_COMPLEXITY_TABLE module_globals))
    innovation_steps complexity_steps = true /\
  monotone_in_second (two_axis_points (INNOVATION_COMPLEXITY_TABLE module_globals))
    innovation_steps complexity_steps = true.
Proof. split; vm_compute; reflexivity. Qed.

Lemma knowledge_teams_mono :
  monotone_in_first (two_axis_points (KNOWLEDGE_TEAMS_TABLE module_globals))
    knowledge_steps teams_steps = true /\
  monotone_in_second (two_axis_points (KNOWLEDGE_TEAMS_TABLE module_globals))
    knowledge_steps teams_steps = true.
Proof. split; vm_compute; reflexivity. Qed.

Lemma breadth_mono (q q' : Q) :
  next_step breadth_steps q q' ->
  breadth_points module_globals q <= breadth_points module_globals q'.
Proof.
  intros Hq.
  apply (monotone_in_first_sound
           (fun a _ => breadth_points module_globals a) breadth_steps [1%Q]
           (fun a a' _ _ Ha _ => breadth_points_proper module_globals a a' Ha)
           ltac:(vm_compute; reflexivity) q q' 1%Q Hq).
  exists 1%Q. split; [left; reflexivity|reflexivity].
Qed.

(** The breakdown of a ratings dict with nine finite ratings. *)
Lemma lookup_points_rated (g : globals) (ratings : gmap string pynum)
    (sq imp con com fra inn cpx kno tea bre : Q) :
  ratings !! "impact" = Some (Num imp) ->
  ratings !! "contribution" = Some (Num con) ->
  ratings !! "communication" = Some (Num com) ->
  ratings !! "frame" = Some (Num fra) ->
  ratings !! "innovation" = Some (Num inn) ->
  ratings !! "complexity" = Some (Num cpx) ->
  ratings !! "knowledge" = Some (Num kno) ->
  ratings !! "teams" = Some (Num tea) ->
  ratings !! "breadth" = Some (Num bre) ->
  exists b, lookup_points g ratings (Num sq) = Ok b /\
    impact_contribution_size b = impact_size_points g (integer_part sq) imp con /\
    communication_frame b =
      two_axis_points (COMMUNICATION_FRAME_TABLE g) com fra /\
    innovation_complexity b =
      two_axis_points (INNOVATION_COMPLEXITY_TABLE g) inn cpx /\
    knowledge_teams b = two_axis_points (KNOWLEDGE_TEAMS_TABLE g) kno tea /\
    breadth b = breadth_points g bre.
Proof.
  intros Himp Hcon Hcom Hfra Hinn Hcpx Hkno Htea Hbre.
  unfold lookup_points.
  rewrite (ratings_get_Some _ _ _ _ Himp), (ratings_get_Some _ _ _ _ Hcon),
    (ratings_get_Some _ _ _ _ Hcom), (ratings_get_Some _ _ _ _ Hfra),
    (ratings_get_Some _ _ _ _ Hinn), (ratings_get_Some _ _ _ _ Hcpx),
    (ratings_get_Some _ _ _ _ Hkno), (ratings_get_Some _ _ _ _ Htea),
    (ratings_get_Some _ _ _ _ Hbre).
  rewrite !py_int_integer_part. cbn [mbind result_bind mret result_ret].
  eexists. split; [reflexivity|]. cbn [impact_contribution_size
    communication_frame innovation_complexity knowledge_teams breadth].
  repeat split; reflexivity.
Qed.

Lemma lookup_insert_other (ratings : gmap string pynum) (d d' : string)
    (v w : pynum) :
  d <> d' -> ratings !! d' = Some w -> <[d := v]> ratings !! d' = Some w.
Proof. intros Hne H. rewrite lookup_insert_ne by exact Hne. exact H. Qed.

Ltac rated_lookup :=
  first [ apply lookup_insert_eq
        | apply lookup_insert_other; [discriminate|eassumption]
        | eassumption ].

(** C7: on a valid ratings dict, with any finite size, raising one rating
    to the next value of its allowed set does not lower the points of the
    component which that rating feeds. *)
Theorem step_up_monotone (ratings : gmap string pynum) (sz : pynum)
    (d : string) (steps : list Q) (q q' : Q) :
  valid_ratings ratings ->
  finite sz ->
  In (d, steps) dimensions ->
  ratings !! d = Some (Num q) ->
  next_step steps q q' ->
  exists b b',
    lookup_points module_globals ratings sz = Ok b /\
    lookup_points module_globals (<[d := Num q']> ratings) sz = Ok b' /\
    component d b <= component d b'.
Proof.
  intros Hvalid [sq ->] Hin Hd Hnext.
  destruct (Hvalid "impact" impact_steps ltac:(simpl; tauto))
    as (imp & Himp & Simp).
  destruct (Hvalid "contribution" contribution_steps ltac:(simpl; tauto))
    as (con & Hcon & Scon).
  destruct (Hvalid "communication" communication_steps ltac:(simpl; tauto))
    as (com & Hcom & Scom).
  destruct (Hvalid "frame" frame_steps ltac:(simpl; tauto))
    as (fra & Hfra & Sfra).
  destruct (Hvalid "innovation" innovation_steps ltac:(simpl; tauto))
    as (inn & Hinn & Sinn).
  destruct (Hvalid "complexity" complexity_steps ltac:(simpl; tauto))
    as (cpx & Hcpx & Scpx).
  destruct (Hvalid "knowledge" knowledge_steps ltac:(simpl; tauto))
    as (kno & Hkno & Skno).
  destruct (Hvalid "teams" teams_steps ltac:(simpl; tauto))
    as (tea & Htea & Stea).
  destruct (Hvalid "breadth" breadth_steps ltac:(simpl; tauto))
    as (bre & Hbre & Sbre).
  clear Hvalid.
  destruct (lookup_points_rated module_globals ratings sq _ _ _ _ _ _ _ _ _
              Himp Hcon Hcom Hfra Hinn Hcpx Hkno Htea Hbre)
    as (b & Hb & E1 & E2 & E3 & E4 & E5).
  exists b.
  unfold dimensions in Hin. simpl in Hin.
  destruct Hin as [Hin|[Hin|[Hin|[Hin|[Hin|[Hin|[Hin|[Hin|[Hin|[]]]]]]]]]];
    injection Hin as <- <-;
    (match goal with |- context [<[?k := Num q']> ratings] =>
       edestruct (lookup_points_rated module_globals (<[k := Num q']> ratings) sq)
         as (b' & Hb' & F1 & F2 & F3 & F4 & F5);
       [rated_lookup ..|]
     end);
    exists b'; (split; [exact Hb|]); (split; [exact Hb'|]).
  - rewrite Hd in Himp. injection Himp as <-.
    change (impact_contribution_size b <= impact_contribution_size b').
    rewrite E1, F1. apply impact_size_mono_impact; assumption.
  - rewrite Hd in Hcon. injection Hcon as <-.
    change (impact_contribution_size b <= impact_contribution_size b').
    rewrite E1, F1. apply impact_size_mono_contribution; assumption.
  - rewrite Hd in Hcom. injection Hcom as <-.
    change (communication_frame b <= communication_frame b').
    rewrite E2, F2.
    apply (monotone_in_first_sound _ _ _ (two_axis_points_proper _)
             (proj1 communication_frame_mono)); assumption.
  - rewrite Hd in Hfra. injection Hfra as <-.
    change (communication_frame b <= communication_frame b').
    rewrite E2, F2.
    apply (monotone_in_second_sound _ _ _ (two_axis_points_proper _)
             (proj2 communication_frame_mono)); assumption.
  - rewrite Hd in Hinn. injection Hinn as <-.
    change (innovation_complexity b <= innovation_complexity b').
    rewrite E3, F3.
    apply (monotone_in_first_sound _ _ _ (two_axis_points_proper _)
             (proj1 innovation_complexity_mono)); assumption.
  - rewrite Hd in Hcpx. injection Hcpx as <-.
    change (innovation_complexity b <= innovation_complexity b').
    rewrite E3, F3.
    apply (monotone_in_second_sound _ _ _ (two_axis_points_proper _)
             (proj2 innovation_complexity_mono)); assumption.
  - rewrite Hd in Hkno. injection Hkno as <-.
    change (knowledge_teams b <= knowledge_teams b').
    rewrite E4, F4.
    apply (monotone_in_first_sound _ _ _ (two_axis_points_proper _)
             (proj1 knowledge_teams_mono)); assumption.
  - rewrite Hd in Htea. injection Htea as <-.
    change (knowledge_teams b <= knowledge_teams b').
    rewrite E4, F4.
    apply (monotone_in_second_sound _ _ _ (two_axis_points_proper _)
             (proj2 knowledge_teams_mono)); assumption.
  - rewrite Hd in Hbre. injection Hbre as <-.
    change (breadth b <= breadth b').
    rewrite E5, F5. apply breadth_mono; assumption.
Qed.

Lemma scenario_high_valid : valid_ratings scenario_high.
Proof.
  intros d steps Hin. unfold dimensions in Hin. simpl in Hin.
  destruct Hin as [Hin|[Hin|[Hin|[Hin|[Hin|[Hin|[Hin|[Hin|[Hin|[]]]]]]]]]];
    injection Hin as <- <-;
    (eexists; split; [reflexivity|]);
    match goal with |- is_step ?q _ => exists q end;
    (split; [cbv; intuition reflexivity|reflexivity]).
Qed.

(** Knowledge 7 and 7.5 read the same row: the points stay at 161. *)
Lemma step_up_monotone_witness :
  exists b b',
    lookup_points module_globals scenario_high (Num 8) = Ok b /\
    lookup_points module_globals (<["knowledge" := Num 7.5]> scenario_high)
      (Num 8) = Ok b' /\
    component "knowledge" b <= component "knowledge" b'.
Proof.
  apply (step_up_monotone scenario_high (Num 8) "knowledge" knowledge_steps
           7 7.5).
  - exact scenario_high_valid.
  - exists 8%Q. reflexivity.
  - cbv. intuition reflexivity.
  - reflexivity.
  - exists 7%Q, 7.5%Q. split; [cbv; intuition reflexivity|].
    split; reflexivity.
Defined.

(** * Further properties of the engine *)

(** ** What an evaluation returns *)

Lemma ipe_of_total_is_banding (t : Z) :
  t <= max_total -> ipe_of_total t = Ok (banding t).
Proof.
  intros Ht. unfold banding.
  destruct (Z.gtb_spec t 26) as [Hgt|Hle].
  - apply ipe_of_total_banding. lia.
  - apply ipe_of_total_no_score. lia.
Qed.

Lemma calculate_ipe_score_of_lookup (ratings : gmap string pynum) (sz : pynum)
    (b : breakdown) :
  lookup_points module_globals ratings sz = Ok b ->
  calculate_ipe_score module_globals ratings sz = Ok (banding (total b), b).
Proof.
  intros Hb. unfold calculate_ipe_score. rewrite Hb.
  pose proof (lookup_points_total_bounds _ _ _ Hb) as Hbound.
  cbn [mbind result_bind]. rewrite ipe_of_total_is_banding by lia.
  reflexivity.
Qed.

Lemma calculate_ipe_score_inv (ratings : gmap string pynum) (sz : pynum)
    (s : option Z) (b : breakdown) :
  calculate_ipe_score module_globals ratings sz = Ok (s, b) ->
  lookup_points module_globals ratings sz = Ok b /\ s = banding (total b).
Proof.
  intros H.
  destruct (lookup_points module_globals ratings sz) as [b'|e] eqn:Hb.
  - rewrite (calculate_ipe_score_of_lookup _ _ _ Hb) in H.
    injection H as <- <-. split; reflexivity.
  - unfold calculate_ipe_score in H. rewrite Hb in H. discriminate H.
Qed.

Lemma lookup_points_component_bounds (ratings : gmap string pynum)
    (sz : pynum) (b : breakdown) :
  lookup_points module_globals ratings sz = Ok b ->
  0 <= impact_contribution_size b <= 347 /\
  0 <= communication_frame b <= 95 /\
  0 <= innovation_complexity b <= 140 /\
  0 <= knowledge_teams b <= 240 /\
  0 <= breadth b <= 20.
Proof.
  intros H. apply lookup_points_inv in H
    as (i & sc & c & n & k & _ & _ & _ & _ & _ & _ & Ha & Hb & Hc & Hd & He & _).
  rewrite Ha, Hb, Hc, Hd, He.
  split; [apply between_spec, dict_get2_all; vm_compute; reflexivity|].
  split; [apply between_spec, dict_get2_all; vm_compute; reflexivity|].
  split; [apply between_spec, dict_get2_all; vm_compute; reflexivity|].
  split; [apply between_spec, dict_get2_all; vm_compute; reflexivity|].
  apply between_spec, dict_get_all; vm_compute; reflexivity.
Qed.

(** X1: in every breakdown the engine returns, no component is negative,
    each stays under the largest entry of its table, the total is the sum of
    the five components, and the size is the one passed in. *)
Theorem breakdown_invariants (ratings : gmap string pynum) (sz : pynum)
    (s : option Z) (b : breakdown) :
  calculate_ipe_score module_globals ratings sz = Ok (s, b) ->
  0 <= impact_contribution_size b <= 347 /\
  0 <= communication_frame b <= 95 /\
  0 <= innovation_complexity b <= 140 /\
  0 <= knowledge_teams b <= 240 /\
  0 <= breadth b <= 20 /\
  total b = impact_contribution_size b + communication_frame b +
            innovation_complexity b + knowledge_teams b + breadth b /\
  size b = sz.
Proof.
  intros H. apply calculate_ipe_score_inv in H as [Hb _].
  pose proof (lookup_points_component_bounds _ _ _ Hb) as (H1 & H2 & H3 & H4 & H5).
  apply lookup_points_inv in Hb
    as (i & sc & c & n & k & _ & _ & _ & _ & _ & _ & _ & _ & _ & _ & _ & Hsz & Ht).
  repeat split; try tauto; assumption.
Qed.

Lemma breakdown_invariants_witness :
  0 <= impact_contribution_size breakdown_27 <= 347 /\
  0 <= communication_frame breakdown_27 <= 95 /\
  0 <= innovation_complexity breakdown_27 <= 140 /\
  0 <= knowledge_teams breakdown_27 <= 240 /\
  0 <= breadth breakdown_27 <= 20 /\
  total breakdown_27 =
    impact_contribution_size breakdown_27 + communication_frame breakdown_27 +
    innovation_complexity breakdown_27 + knowledge_teams breakdown_27 +
    breadth breakdown_27 /\
  size breakdown_27 = Num 1.
Proof.
  apply (breakdown_invariants scenario_27 (Num 1) (Some 40) breakdown_27).
  vm_compute. reflexivity.
Defined.

(** ** Scores and levels *)

Lemma level_from_band_all :
  forallb (level_from_band module_globals) (Z_range 40 34) = true.
Proof. vm_compute. reflexivity. Qed.

(** X2: a score returned by [calculate_ipe_score] lies between 40 and 72,
    so [score_to_level] finds it in a band of the table and returns that
    band's level: the fallback [return 1] is never taken on an engine score. *)
Theorem score_within_bands (ratings : gmap string pynum) (sz : pynum)
    (s : Z) (b : breakdown) :
  calculate_ipe_score module_globals ratings sz = Ok (Some s, b) ->
  40 <= s <= 72 /\
  exists lo hi,
    In (lo, hi, score_to_level module_globals s)
       (IPE_LEVEL_MAPPING module_globals) /\
    lo <= s <= hi.
Proof.
  intros H. apply calculate_ipe_score_inv in H as [Hb Hs].
  pose proof (lookup_points_total_bounds _ _ _ Hb) as Hbound.
  unfold max_total in Hbound. unfold banding in Hs.
  destruct (Z.gtb_spec (total b) 26) as [Hgt|Hle]; [|discriminate].
  injection Hs as ->.
  assert (Hq : 0 <= (total b - 26) / 25 <= 32).
  { split; [apply Z.div_pos; lia|].
    apply Z.lt_succ_r, Z.div_lt_upper_bound; lia. }
  split; [lia|].
  assert (Hband : level_from_band module_globals ((total b - 26) / 25 + 40) = true)
    by (apply (Z_range_forallb _ _ _ level_from_band_all); simpl; lia).
  unfold level_from_band in Hband. apply existsb_exists in Hband
    as ([[lo hi] level] & Hin & Hok).
  apply andb_prop in Hok as [Hin_band Hlevel].
  apply Z.eqb_eq in Hlevel. simpl in Hlevel. subst level.
  unfold in_band in Hin_band. apply andb_prop in Hin_band as [Hlo Hhi].
  apply Z.leb_le in Hlo, Hhi.
  exists lo, hi. split; [exact Hin|lia].
Qed.

Lemma score_within_bands_witness :
  40 <= 58 <= 72 /\
  exists lo hi,
    In (lo, hi, score_to_level module_globals 58)
       (IPE_LEVEL_MAPPING module_globals) /\
    lo <= 58 <= hi.
Proof.
  eapply (score_within_bands scenario_high (Num 8) 58).
  vm_compute. reflexivity.
Defined.

Lemma score_to_level_loop_range (bands : list (Z * Z * Z)) (s : Z) :
  Forall (fun band => 1 <= snd band <= 12) bands ->
  1 <= score_to_level_loop bands s <= 12.
Proof.
  induction 1 as [|[[lo hi] level] bands Hband _ IH]; simpl; [lia|].
  destruct ((lo <=? s) && (s <=? hi)); [exact Hband|exact IH].
Qed.

(** X3: whatever integer it is given, [score_to_level] returns a level
    between 1 and 12. *)
Theorem score_to_level_range (s : Z) :
  1 <= score_to_level module_globals s <= 12.
Proof.
  apply score_to_level_loop_range.
  repeat constructor; simpl; lia.
Qed.

Lemma levels_ordered_all :
  forallb (levels_ordered module_globals (Z_range 40 34)) (Z_range 40 34) = true.
Proof. vm_compute. reflexivity. Qed.

(** X4: on the scores of the band table, a higher score never maps to a
    lower level. *)
Theorem score_to_level_monotone (s s' : Z) :
  40 <= s -> s <= s' -> s' <= 73 ->
  score_to_level module_globals s <= score_to_level module_globals s'.
Proof.
  intros Hlo Hle Hhi.
  assert (Hs : levels_ordered module_globals (Z_range 40 34) s = true)
    by (apply (Z_range_forallb _ _ _ levels_ordered_all); simpl; lia).
  unfold levels_ordered in Hs. rewrite forallb_forall in Hs.
  specialize (Hs s' ltac:(apply Z_range_In; simpl; lia)).
  apply orb_prop in Hs as [Hlt|Hok].
  - apply Z.ltb_lt in Hlt. lia.
  - apply Z.leb_le, Hok.
Qed.

Lemma score_to_level_monotone_witness :
  score_to_level module_globals 47 <= score_to_level module_globals 48.
Proof. apply (score_to_level_monotone 47 48); lia. Defined.

(** ** Exceptions *)

Lemma lookup_points_errors (g : globals) (ratings : gmap string pynum)
    (sz : pynum) :
  match first_error (converted ratings sz) with
  | Some e => lookup_points g ratings sz = Raise e
  | None => exists b, lookup_points g ratings sz = Ok b
  end.
Proof.
  unfold converted, lookup_points.
  destruct (ratings_get ratings "impact" (Num 1)) as [qi| |];
    cbn [first_error py_int mbind result_bind]; try reflexivity.
  destruct sz as [qs| |];
    cbn [first_error py_int mbind result_bind]; try reflexivity.
  destruct (ratings_get ratings "communication" (Num 1)) as [qc| |];
    cbn [first_error py_int mbind result_bind]; try reflexivity.
  destruct (ratings_get ratings "innovation" (Num 1)) as [qn| |];
    cbn [first_error py_int mbind result_bind]; try reflexivity.
  destruct (ratings_get ratings "knowledge" (Num 1)) as [qk| |];
    cbn [first_error py_int mbind result_bind]; try reflexivity.
  eexists. reflexivity.
Qed.

(** X5: on ratings and a size that are numbers (ints or floats, NaN and
    the infinities included), as the signature of [calculate_ipe_score]
    declares them, the function raises exactly when one of the values it
    converts with [int()] (impact, size, communication, innovation,
    knowledge, in that order) is NaN or infinite, and then with the
    exception of the first such value: [ValueError] for NaN,
    [OverflowError] for an infinity.  NaN or an infinity as contribution,
    frame, complexity, teams or breadth never raises.  Ratings that are not
    numbers are not covered. *)
Theorem conversion_errors (ratings : gmap string pynum) (sz : pynum) :
  match first_error (converted ratings sz) with
  | Some e => calculate_ipe_score module_globals ratings sz = Raise e
  | None => exists s b, calculate_ipe_score module_globals ratings sz = Ok (s, b)
  end.
Proof.
  pose proof (lookup_points_errors module_globals ratings sz) as H.
  destruct (first_error (converted ratings sz)) as [e|].
  - unfold calculate_ipe_score. rewrite H. reflexivity.
  - destruct H as [b Hb]. exists (banding (total b)), b.
    apply calculate_ipe_score_of_lookup, Hb.
Qed.

(** ** The size factor *)

(** X6: the size enters the points only through its integer part: two
    finite sizes with the same integer part (7 and 7.5, say) get the same
    score and the same points, and differ only in the size echoed in the
    breakdown. *)
Theorem size_integer_part_only (ratings : gmap string pynum) (sq sq' : Q)
    (s : option Z) (b : breakdown) :
  integer_part sq = integer_part sq' ->
  calculate_ipe_score module_globals ratings (Num sq) = Ok (s, b) ->
  exists b',
    calculate_ipe_score module_globals ratings (Num sq') = Ok (s, b') /\
    impact_contribution_size b' = impact_contribution_size b /\
    intermediate_value b' = intermediate_value b /\
    communication_frame b' = communication_frame b /\
    innovation_complexity b' = innovation_complexity b /\
    knowledge_teams b' = knowledge_teams b /\
    breadth b' = breadth b /\
    total b' = total b /\
    size b' = Num sq'.
Proof.
  intros Hsq H. apply calculate_ipe_score_inv in H as [Hb ->].
  apply lookup_points_inv in Hb
    as (i & sc & c & n & k & Hi & Hs & Hc & Hn & Hk
        & Hiv & Hics & Hcf & Hic & Hkt & Hbr & Hsz & Ht).
  rewrite py_int_integer_part in Hs. injection Hs as <-.
  destruct (lookup_points_defined module_globals ratings (Num sq') _ _ _ _ _
              Hi (py_int_integer_part sq') Hc Hn Hk) as [b' Hb'].
  exists b'.
  pose proof (calculate_ipe_score_of_lookup _ _ _ Hb') as Hcalc.
  apply lookup_points_inv in Hb'
    as (i' & sc' & c' & n' & k' & Hi' & Hs' & Hc' & Hn' & Hk'
        & Hiv' & Hics' & Hcf' & Hic' & Hkt' & Hbr' & Hsz' & Ht').
  rewrite Hi in Hi'. rewrite Hc in Hc'. rewrite Hn in Hn'. rewrite Hk in Hk'.
  rewrite py_int_integer_part in Hs'.
  injection Hi' as <-. injection Hs' as <-. injection Hc' as <-.
  injection Hn' as <-. injection Hk' as <-.
  assert (Eiv : intermediate_value b' = intermediate_value b) by congruence.
  assert (Eics : impact_contribution_size b' = impact_contribution_size b)
    by (rewrite Hics', Hics, Eiv, Hsq; reflexivity).
  assert (Ecf : communication_frame b' = communication_frame b) by congruence.
  assert (Eic : innovation_complexity b' = innovation_complexity b) by congruence.
  assert (Ekt : knowledge_teams b' = knowledge_teams b) by congruence.
  assert (Ebr : breadth b' = breadth b) by congruence.
  assert (Et : total b' = total b) by lia.
  rewrite Et in Hcalc. repeat split; assumption.
Qed.

Lemma size_integer_part_only_witness :
  exists b',
    calculate_ipe_score module_globals scenario_27 (Num 1.5) = Ok (Some 40, b') /\
    impact_contribution_size b' = impact_contribution_size breakdown_27 /\
    intermediate_value b' = intermediate_value breakdown_27 /\
    communication_frame b' = communication_frame breakdown_27 /\
    innovation_complexity b' = innovation_complexity breakdown_27 /\
    knowledge_teams b' = knowledge_teams breakdown_27 /\
    breadth b' = breadth breakdown_27 /\
    total b' = total breakdown_27 /\
    size b' = Num 1.5.
Proof.
  apply (size_integer_part_only scenario_27 1 1.5 (Some 40) breakdown_27).
  - reflexivity.
  - vm_compute. reflexivity.
Defined.

(** ** One rating, one component *)

Lemma ratings_get_insert_ne (ratings : gmap string pynum) (d name : string)
    (v dflt : pynum) :
  d <> name ->
  ratings_get (<[d := v]> ratings) name dflt = ratings_get ratings name dflt.
Proof.
  intros Hne. unfold ratings_get. rewrite lookup_insert_ne by exact Hne.
  reflexivity.
Qed.

Ltac not_fed H :=
  let E := fresh in intros E; apply H; rewrite E; reflexivity.

(** X7: setting one key of the ratings dict changes only the component
    that key feeds; the points of the other components stay as they were
    (and a key that is no dimension changes none). *)
Theorem other_components_unchanged (g : globals) (ratings : gmap string pynum)
    (sz : pynum) (d : string) (v : pynum) (b b' : breakdown) :
  lookup_points g ratings sz = Ok b ->
  lookup_points g (<[d := v]> ratings) sz = Ok b' ->
  forall p, feeds d <> Some p -> points_of p b' = points_of p b.
Proof.
  intros Hb Hb' p Hp.
  apply lookup_points_inv in Hb
    as (i & sc & c & n & k & Hi & Hs & Hc & Hn & Hk
        & Hiv & Hics & Hcf & Hic & Hkt & Hbr & _).
  apply lookup_points_inv in Hb'
    as (i' & sc' & c' & n' & k' & Hi' & Hs' & Hc' & Hn' & Hk'
        & Hiv' & Hics' & Hcf' & Hic' & Hkt' & Hbr' & _).
  rewrite Hs in Hs'. injection Hs' as <-.
  destruct p; cbn [points_of].
  - assert (N1 : d <> "impact") by not_fed Hp.
    assert (N2 : d <> "contribution") by not_fed Hp.
    rewrite (ratings_get_insert_ne _ _ _ _ _ N1), Hi in Hi'.
    injection Hi' as <-.
    rewrite (ratings_get_insert_ne _ _ _ _ _ N2), <- Hiv in Hiv'.
    rewrite Hics', Hiv', <- Hics. reflexivity.
  - assert (N1 : d <> "communication") by not_fed Hp.
    assert (N2 : d <> "frame") by not_fed Hp.
    rewrite (ratings_get_insert_ne _ _ _ _ _ N1), Hc in Hc'.
    injection Hc' as <-.
    rewrite (ratings_get_insert_ne _ _ _ _ _ N2), <- Hcf in Hcf'. exact Hcf'.
  - assert (N1 : d <> "innovation") by not_fed Hp.
    assert (N2 : d <> "complexity") by not_fed Hp.
    rewrite (ratings_get_insert_ne _ _ _ _ _ N1), Hn in Hn'.
    injection Hn' as <-.
    rewrite (ratings_get_insert_ne _ _ _ _ _ N2), <- Hic in Hic'. exact Hic'.
  - assert (N1 : d <> "knowledge") by not_fed Hp.
    assert (N2 : d <> "teams") by not_fed Hp.
    rewrite (ratings_get_insert_ne _ _ _ _ _ N1), Hk in Hk'.
    injection Hk' as <-.
    rewrite (ratings_get_insert_ne _ _ _ _ _ N2), <- Hkt in Hkt'. exact Hkt'.
  - assert (N1 : d <> "breadth") by not_fed Hp.
    rewrite (ratings_get_insert_ne _ _ _ _ _ N1), <- Hbr in Hbr'. exact Hbr'.
Qed.

(** Raising the frame of the worked scenario from 3 to 4 changes the
    Communication x Frame points only. *)
Lemma other_components_unchanged_witness :
  points_of KnowledgeTeams breakdown_high_frame_4 =
    points_of KnowledgeTeams breakdown_high.
Proof.
  apply (other_components_unchanged module_globals scenario_high (Num 8)
           "frame" (Num 4) breakdown_high breakdown_high_frame_4).
  - vm_compute. reflexivity.
  - vm_compute. reflexivity.
  - discriminate.
Defined.

(** ** Valid ratings *)

Lemma all_steps_sound (P : Q -> Q -> bool) (rows cols : list Q) :
  (forall a a' c c', a == a' -> c == c' -> P a c = P a' c') ->
  all_steps P rows cols = true ->
  forall a c, is_step a rows -> is_step c cols -> P a c = true.
Proof.
  intros HP Hall a c (s & Hs & Ha) (t & Ht & Hc).
  unfold all_steps in Hall. rewrite forallb_forall in Hall.
  specialize (Hall _ Hs). rewrite forallb_forall in Hall.
  rewrite (HP a s c t Ha Hc). apply Hall, Ht.
Qed.

Lemma two_axis_points_at_least (lo : Z) (T : dict (dict Z))
    (rows cols : list Q) (a c : Q) :
  all_steps (at_least lo (two_axis_points T)) rows cols = true ->
  is_step a rows -> is_step c cols -> lo <= two_axis_points T a c.
Proof.
  intros Hall Ha Hc. apply Z.leb_le.
  refine (all_steps_sound _ rows cols _ Hall a c Ha Hc).
  intros x x' y y' Hx Hy. unfold at_least.
  rewrite (two_axis_points_proper T x x' y y' Hx Hy). reflexivity.
Qed.

(** On nine valid ratings the three rated tables give at least 10, 10 and
    15 points. *)
Lemma valid_ratings_floor (ratings : gmap string pynum) (sq : Q) :
  valid_ratings ratings ->
  exists b, lookup_points module_globals ratings (Num sq) = Ok b /\
    10 <= communication_frame b /\
    10 <= innovation_complexity b /\
    15 <= knowledge_teams b.
Proof.
  intros Hvalid.
  destruct (Hvalid "impact" impact_steps ltac:(simpl; tauto))
    as (imp & Himp & Simp).
  destruct (Hvalid "contribution" contribution_steps ltac:(simpl; tauto))
    as (con & Hcon & Scon).
  destruct (Hvalid "communication" communication_steps ltac:(simpl; tauto))
    as (com & Hcom & Scom).
  destruct (Hvalid "frame" frame_steps ltac:(simpl; tauto))
    as (fra & Hfra & Sfra).
  destruct (Hvalid "innovation" innovation_steps ltac:(simpl; tauto))
    as (inn & Hinn & Sinn).
  destruct (Hvalid "complexity" complexity_steps ltac:(simpl; tauto))
    as (cpx & Hcpx & Scpx).
  destruct (Hvalid "knowledge" knowledge_steps ltac:(simpl; tauto))
    as (kno & Hkno & Skno).
  destruct (Hvalid "teams" teams_steps ltac:(simpl; tauto))
    as (tea & Htea & Stea).
  destruct (Hvalid "breadth" breadth_steps ltac:(simpl; tauto))
    as (bre & Hbre & Sbre).
  destruct (lookup_points_rated module_globals ratings sq _ _ _ _ _ _ _ _ _
              Himp Hcon Hcom Hfra Hinn Hcpx Hkno Htea Hbre)
    as (b & Hb & E1 & E2 & E3 & E4 & E5).
  exists b. split; [exact Hb|]. rewrite E2, E3, E4.
  split; [|split].
  - apply (two_axis_points_at_least 10 _ communication_steps frame_steps);
      [vm_compute; reflexivity|assumption..].
  - apply (two_axis_points_at_least 10 _ innovation_steps complexity_steps);
      [vm_compute; reflexivity|assumption..].
  - apply (two_axis_points_at_least 15 _ knowledge_steps teams_steps);
      [vm_compute; reflexivity|assumption..].
Qed.

(** X8: nine valid ratings always get a score, whatever the finite size:
    the total is at least 35, so the engine never answers [None] and the
    message for a missing score cannot come from valid input. *)
Theorem valid_ratings_scored (ratings : gmap string pynum) (sz : pynum) :
  valid_ratings ratings ->
  finite sz ->
  exists s b,
    calculate_ipe_score module_globals ratings sz = Ok (Some s, b) /\
    35 <= total b /\ 40 <= s.
Proof.
  intros Hvalid [sq ->].
  destruct (valid_ratings_floor ratings sq Hvalid) as (b & Hb & H1 & H2 & H3).
  pose proof (lookup_points_component_bounds _ _ _ Hb) as (B1 & _ & _ & _ & B5).
  pose proof (calculate_ipe_score_of_lookup _ _ _ Hb) as Hcalc.
  apply lookup_points_inv in Hb
    as (i & sc & c & n & k & _ & _ & _ & _ & _ & _ & _ & _ & _ & _ & _ & _ & Ht).
  assert (Htot : 35 <= total b) by lia.
  unfold banding in Hcalc.
  destruct (Z.gtb_spec (total b) 26) as [Hgt|Hle]; [|lia].
  exists ((total b - 26) / 25 + 40), b.
  split; [exact Hcalc|]. split; [exact Htot|].
  assert (0 <= (total b - 26) / 25) by (apply Z.div_pos; lia). lia.
Qed.

Lemma valid_ratings_scored_witness :
  exists s b,
    calculate_ipe_score module_globals scenario_high (Num 8) = Ok (Some s, b) /\
    35 <= total b /\ 40 <= s.
Proof.
  apply (valid_ratings_scored scenario_high (Num 8)).
  - exact scenario_high_valid.
  - exists 8%Q. reflexivity.
Defined.

(** ** A step up, end to end *)

Ltac same_rating :=
  repeat match goal with
  | H : ?r !! ?k = Some (Num ?x), H' : ?r !! ?k = Some (Num ?y) |- _ =>
      rewrite H in H'; injection H' as <-
  end.

Ltac table_step_up :=
  first
    [ match goal with |- ?a <= ?a => apply Z.le_refl end
    | apply impact_size_mono_impact; assumption
    | apply impact_size_mono_contribution; assumption
    | apply (monotone_in_first_sound _ _ _ (two_axis_points_proper _)
               (proj1 communication_frame_mono)); assumption
    | apply (monotone_in_second_sound _ _ _ (two_axis_points_proper _)
               (proj2 communication_frame_mono)); assumption
    | apply (monotone_in_first_sound _ _ _ (two_axis_points_proper _)
               (proj1 innovation_complexity_mono)); assumption
    | apply (monotone_in_second_sound _ _ _ (two_axis_points_proper _)
               (proj2 innovation_complexity_mono)); assumption
    | apply (monotone_in_first_sound _ _ _ (two_axis_points_proper _)
               (proj1 knowledge_teams_mono)); assumption
    | apply (monotone_in_second_sound _ _ _ (two_axis_points_proper _)
               (proj2 knowledge_teams_mono)); assumption
    | apply breadth_mono; assumption ].

(** After a step up of one valid rating every component is where it was or
    higher. *)
Lemma step_up_components (ratings : gmap string pynum) (sq : Q)
    (d : string) (steps : list Q) (q q' : Q) :
  valid_ratings ratings ->
  In (d, steps) dimensions ->
  ratings !! d = Some (Num q) ->
  next_step steps q q' ->
  exists b b',
    lookup_points module_globals ratings (Num sq) = Ok b /\
    lookup_points module_globals (<[d := Num q']> ratings) (Num sq) = Ok b' /\
    impact_contribution_size b <= impact_contribution_size b' /\
    communication_frame b <= communication_frame b' /\
    innovation_complexity b <= innovation_complexity b' /\
    knowledge_teams b <= knowledge_teams b' /\
    breadth b <= breadth b'.
Proof.
  intros Hvalid Hin Hd Hnext.
  destruct (Hvalid "impact" impact_steps ltac:(simpl; tauto))
    as (imp & Himp & Simp).
  destruct (Hvalid "contribution" contribution_steps ltac:(simpl; tauto))
    as (con & Hcon & Scon).
  destruct (Hvalid "communication" communication_steps ltac:(simpl; tauto))
    as (com & Hcom & Scom).
  destruct (Hvalid "frame" frame_steps ltac:(simpl; tauto))
    as (fra & Hfra & Sfra).
  destruct (Hvalid "innovation" innovation_steps ltac:(simpl; tauto))
    as (inn & Hinn & Sinn).
  destruct (Hvalid "complexity" complexity_steps ltac:(simpl; tauto))
    as (cpx & Hcpx & Scpx).
  destruct (Hvalid "knowledge" knowledge_steps ltac:(simpl; tauto))
    as (kno & Hkno & Skno).
  destruct (Hvalid "teams" teams_steps ltac:(simpl; tauto))
    as (tea & Htea & Stea).
  destruct (Hvalid "breadth" breadth_steps ltac:(simpl; tauto))
    as (bre & Hbre & Sbre).
  clear Hvalid.
  destruct (lookup_points_rated module_globals ratings sq _ _ _ _ _ _ _ _ _
              Himp Hcon Hcom Hfra Hinn Hcpx Hkno Htea Hbre)
    as (b & Hb & E1 & E2 & E3 & E4 & E5).
  exists b.
  unfold dimensions in Hin. simpl in Hin.
  destruct Hin as [Hin|[Hin|[Hin|[Hin|[Hin|[Hin|[Hin|[Hin|[Hin|[]]]]]]]]]];
    injection Hin as <- <-;
    (match goal with |- context [<[?k := Num q']> ratings] =>
       edestruct (lookup_points_rated module_globals (<[k := Num q']> ratings) sq)
         as (b' & Hb' & F1 & F2 & F3 & F4 & F5);
       [rated_lookup ..|]
     end);
    exists b'; (split; [exact Hb|]); (split; [exact Hb'|]);
    rewrite E1, E2, E3, E4, E5, F1, F2, F3, F4, F5;
    same_rating; repeat split; table_step_up.
Qed.

(** X9: on nine valid ratings and a finite size, raising one rating to the
    next value of its allowed set never lowers the total, the IPE score or
    the job level. *)
Theorem step_up_score_and_level (ratings : gmap string pynum) (sz : pynum)
    (d : string) (steps : list Q) (q q' : Q) :
  valid_ratings ratings ->
  finite sz ->
  In (d, steps) dimensions ->
  ratings !! d = Some (Num q) ->
  next_step steps q q' ->
  exists s s' b b',
    calculate_ipe_score module_globals ratings sz = Ok (Some s, b) /\
    calculate_ipe_score module_globals (<[d := Num q']> ratings) sz
      = Ok (Some s', b') /\
    total b <= total b' /\
    s <= s' /\
    score_to_level module_globals s <= score_to_level module_globals s'.
Proof.
  intros Hvalid [sq ->] Hin Hd Hnext.
  destruct (step_up_components ratings sq d steps q q' Hvalid Hin Hd Hnext)
    as (b & b' & Hb & Hb' & L1 & L2 & L3 & L4 & L5).
  destruct (valid_ratings_floor ratings sq Hvalid) as (b0 & Hb0 & M1 & M2 & M3).
  rewrite Hb in Hb0. injection Hb0 as <-.
  pose proof (lookup_points_component_bounds _ _ _ Hb) as (B1 & _ & _ & _ & B5).
  pose proof (lookup_points_total_bounds _ _ _ Hb') as Hmax.
  unfold max_total in Hmax.
  pose proof (calculate_ipe_score_of_lookup _ _ _ Hb) as Hcalc.
  pose proof (calculate_ipe_score_of_lookup _ _ _ Hb') as Hcalc'.
  apply lookup_points_inv in Hb
    as (? & ? & ? & ? & ? & _ & _ & _ & _ & _ & _ & _ & _ & _ & _ & _ & _ & Ht).
  apply lookup_points_inv in Hb'
    as (? & ? & ? & ? & ? & _ & _ & _ & _ & _ & _ & _ & _ & _ & _ & _ & _ & Ht').
  assert (Hlow : 35 <= total b) by lia.
  assert (Hle : total b <= total b') by lia.
  unfold banding in Hcalc, Hcalc'.
  destruct (Z.gtb_spec (total b) 26) as [_|]; [|lia].
  destruct (Z.gtb_spec (total b') 26) as [_|]; [|lia].
  exists ((total b - 26) / 25 + 40), ((total b' - 26) / 25 + 40), b, b'.
  split; [exact Hcalc|]. split; [exact Hcalc'|]. split; [exact Hle|].
  assert (Hdiv : (total b - 26) / 25 <= (total b' - 26) / 25)
    by (apply Z.div_le_mono; lia).
  assert (0 <= (total b - 26) / 25) by (apply Z.div_pos; lia).
  assert ((total b' - 26) / 25 <= 32)
    by (apply Z.lt_succ_r, Z.div_lt_upper_bound; lia).
  split; [lia|].
  set (s := (total b - 26) / 25 + 40) in *.
  set (s' := (total b' - 26) / 25 + 40) in *.
  assert (Hs : levels_ordered module_globals (Z_range 40 34) s = true)
    by (apply (Z_range_forallb _ _ _ levels_ordered_all); simpl; lia).
  unfold levels_ordered in Hs. rewrite forallb_forall in Hs.
  specialize (Hs s' ltac:(apply Z_range_In; simpl; lia)).
  apply orb_prop in Hs as [Hlt|Hok].
  - apply Z.ltb_lt in Hlt. lia.
  - apply Z.leb_le, Hok.
Qed.

(** Raising the contribution of the worked scenario from 4 to 4.5. *)
Lemma step_up_score_and_level_witness :
  exists s s' b b',
    calculate_ipe_score module_globals scenario_high (Num 8) = Ok (Some s, b) /\
    calculate_ipe_score module_globals
      (<["contribution" := Num 4.5]> scenario_high) (Num 8) = Ok (Some s', b') /\
    total b <= total b' /\
    s <= s' /\
    score_to_level module_globals s <= score_to_level module_globals s'.
Proof.
  apply (step_up_score_and_level scenario_high (Num 8) "contribution"
           contribution_steps 4 4.5).
  - exact scenario_high_valid.
  - exists 8%Q. reflexivity.
  - cbv. intuition reflexivity.
  - reflexivity.
  - exists 4%Q, 4.5%Q. split; [cbv; intuition reflexivity|].
    split; reflexivity.
Defined.

(** X10: the score follows the total: of two evaluations, whatever their
    ratings, the one with the higher total has a score as soon as the other
    has one, and its score is not lower. *)
Theorem score_monotone_in_total (r1 r2 : gmap string pynum) (sz1 sz2 : pynum)
    (s1 s2 : option Z) (b1 b2 : breakdown) (x : Z) :
  calculate_ipe_score module_globals r1 sz1 = Ok (s1, b1) ->
  calculate_ipe_score module_globals r2 sz2 = Ok (s2, b2) ->
  total b1 <= total b2 ->
  s1 = Some x ->
  exists y, s2 = Some y /\ x <= y.
Proof.
  intros H1 H2 Hle Hx.
  apply calculate_ipe_score_inv in H1 as [_ E1].
  apply calculate_ipe_score_inv in H2 as [_ E2].
  subst s1 s2. unfold banding in *.
  destruct (Z.gtb_spec (total b1) 26) as [Hgt|]; [|discriminate].
  injection Hx as <-.
  destruct (Z.gtb_spec (total b2) 26) as [_|]; [|lia].
  eexists. split; [reflexivity|].
  apply Z.add_le_mono_r, Z.div_le_mono; lia.
Qed.

Lemma score_monotone_in_total_witness :
  exists y, Some 58 = Some y /\ 40 <= y.
Proof.
  apply (score_monotone_in_total scenario_27 scenario_high (Num 1) (Num 8)
           (Some 40) (Some 58) breakdown_27 breakdown_high 40).
  - vm_compute. reflexivity.
  - vm_compute. reflexivity.
  - vm_compute. discriminate.
  - reflexivity.
Defined.

(** ** The result page *)

(** X11: in the breakdown table shown for an evaluation, the four dimension
    rows add up to the TOTAL row, which is also the exported
    [total_points]. *)
Theorem breakdown_table_adds_up (ratings : gmap string pynum) (sz : pynum)
    (s : option Z) (b : breakdown) (x : Z)
    (justifications : gmap string string) (guardrails : list string)
    (title : string) :
  calculate_ipe_score module_globals ratings sz = Ok (s, b) ->
  let d := display_evaluation_results module_globals x b ratings
             justifications guardrails title in
  exists rows total_row,
    breakdown_df d = rows ++ [total_row] /\
    length rows = 4%nat /\
    fst total_row = "**TOTAL**"%string /\
    sum_points rows = snd total_row /\
    snd total_row = json_total_points (export d).
Proof.
  intros H d. apply calculate_ipe_score_inv in H as [Hb _].
  apply lookup_points_inv in Hb
    as (? & ? & ? & ? & ? & _ & _ & _ & _ & _ & _ & _ & _ & _ & _ & _ & _ & Ht).
  subst d. cbn [display_evaluation_results breakdown_df export json_total_points].
  eexists [_; _; _; _], _. split; [reflexivity|].
  cbn [sum_points fold_right snd fst length].
  repeat split. lia.
Qed.

Lemma breakdown_table_adds_up_witness :
  let d := display_evaluation_results module_globals 58 breakdown_high
             scenario_high ∅ [] "Job" in
  exists rows total_row,
    breakdown_df d = rows ++ [total_row] /\
    length rows = 4%nat /\
    fst total_row = "**TOTAL**"%string /\
    sum_points rows = snd total_row /\
    snd total_row = json_total_points (export d).
Proof.
  apply (breakdown_table_adds_up scenario_high (Num 8) (Some 58)
           breakdown_high 58 ∅ [] "Job").
  vm_compute. reflexivity.
Defined.

(** X12: the step from the ratings to the page, for ratings and a size
    that are numbers.  Results are shown exactly when the lookups give a
    total above 26; the score shown is then [floor((total - 26) / 25) + 40],
    between 40 and 72, and the level is the one of the band holding it: the
    truth test on the score never hides a score.  The missing-score message
    is shown exactly when the lookups give a total of 26 or less.  Otherwise
    [calculate_ipe_score] has raised, on a converted value that is NaN or
    infinite, and its exception is the one reported.  Exceptions from
    elsewhere in the [try] block and ratings that are not numbers are not
    covered. *)
Theorem page_outcome (ratings : gmap string pynum) (sz : pynum)
    (justifications : gmap string string) (guardrails : list string)
    (title : string) :
  match evaluate_and_display module_globals ratings sz justifications
          guardrails title with
  | ShowResults d =>
      exists b, lookup_points module_globals ratings sz = Ok b /\
        26 < total b /\
        json_ipe_score (export d) = (total b - 26) / 25 + 40 /\
        40 <= json_ipe_score (export d) <= 72 /\
        json_breakdown (export d) = b /\
        shown_level d = json_level (export d) /\
        exists lo hi,
          In (lo, hi, shown_level d) (IPE_LEVEL_MAPPING module_globals) /\
          lo <= json_ipe_score (export d) <= hi
  | ShowNoScore =>
      exists b, lookup_points module_globals ratings sz = Ok b /\ total b <= 26
  | ShowException e =>
      calculate_ipe_score module_globals ratings sz = Raise e /\
      first_error (converted ratings sz) = Some e
  end.
Proof.
  unfold evaluate_and_display.
  pose proof (lookup_points_errors module_globals ratings sz) as Herr.
  destruct (first_error (converted ratings sz)) as [e|].
  - unfold calculate_ipe_score. rewrite Herr. split; reflexivity.
  - destruct Herr as [b Hb].
    rewrite (calculate_ipe_score_of_lookup _ _ _ Hb).
    pose proof (lookup_points_total_bounds _ _ _ Hb) as Hbound.
    unfold max_total in Hbound. unfold banding.
    destruct (Z.gtb_spec (total b) 26) as [Hgt|Hle];
      [|exists b; split; [exact Hb|lia]].
    assert (Hq : 0 <= (total b - 26) / 25 <= 32).
    { split; [apply Z.div_pos; lia|].
      apply Z.lt_succ_r, Z.div_lt_upper_bound; lia. }
    set (s := (total b - 26) / 25 + 40) in *.
    unfold truthy. destruct (Z.eqb_spec s 0) as [E|_]; [lia|].
    cbn [negb]. exists b.
    cbn [display_evaluation_results export json_ipe_score json_breakdown
      json_level shown_level].
    split; [exact Hb|]. split; [lia|]. split; [reflexivity|].
    split; [lia|]. split; [reflexivity|]. split; [reflexivity|].
    assert (Hband : level_from_band module_globals s = true)
      by (apply (Z_range_forallb _ _ _ level_from_band_all); simpl; lia).
    unfold level_from_band in Hband. apply existsb_exists in Hband
      as ([[lo hi] level] & Hin & Hok).
    apply andb_prop in Hok as [Hin_band Hlevel].
    apply Z.eqb_eq in Hlevel. simpl in Hlevel. subst level.
    unfold in_band in Hin_band. apply andb_prop in Hin_band as [Hlo Hhi].
    apply Z.leb_le in Hlo, Hhi.
    exists lo, hi. split; [exact Hin|lia].
Qed.

(** ** Ratings taken from the model's answer *)

Lemma collect_dimension_lookup (result : model_answer)
    (acc : gmap string pynum * gmap string string) (n d : string) :
  fst (collect_dimension result acc n) !! d =
    if decide (d = n) then
      match answers result !! n with
      | Some a => Some (rating_of a)
      | None => fst acc !! d
      end
    else fst acc !! d.
Proof.
  unfold collect_dimension.
  destruct (answers result !! n) as [a|]; cbn [fst].
  - destruct (decide (d = n)) as [->|Hne].
    + apply lookup_insert_eq.
    + apply lookup_insert_ne. congruence.
  - destruct (decide (d = n)); reflexivity.
Qed.

Lemma collect_fold_ratings (result : model_answer) (names : list string)
    (acc : gmap string pynum * gmap string string) (d : string) :
  fst (foldl (collect_dimension result) acc names) !! d =
    if decide (d ∈ names) then
      match answers result !! d with
      | Some a => Some (rating_of a)
      | None => fst acc !! d
      end
    else fst acc !! d.
Proof.
  revert acc. induction names as [|n names IH]; intros acc; simpl.
  - destruct (decide (d ∈ [])) as [Hin|_]; [|reflexivity].
    apply elem_of_nil in Hin. contradiction.
  - rewrite IH, collect_dimension_lookup.
    destruct (decide (d = n)) as [->|Hne].
    + destruct (decide (n ∈ n :: names)) as [_|Hnot];
        [|exfalso; apply Hnot; left].
      destruct (decide (n ∈ names)); destruct (answers result !! n);
        reflexivity.
    + assert (Hiff : d ∈ n :: names <-> d ∈ names).
      { rewrite elem_of_cons. tauto. }
      destruct (decide (d ∈ names)) as [Hin|Hnin];
        destruct (decide (d ∈ n :: names)) as [Hin'|Hnin'];
        try reflexivity; tauto.
Qed.

Lemma collect_fold_keys (result : model_answer) (names : list string)
    (acc : gmap string pynum * gmap string string) (d : string) :
  (is_Some (fst acc !! d) <-> is_Some (snd acc !! d)) ->
  is_Some (fst (foldl (collect_dimension result) acc names) !! d) <->
  is_Some (snd (foldl (collect_dimension result) acc names) !! d).
Proof.
  revert acc. induction names as [|n names IH]; intros acc Hacc; simpl;
    [exact Hacc|].
  apply IH. unfold collect_dimension.
  destruct (answers result !! n) as [a|]; cbn [fst snd]; [|exact Hacc].
  destruct (decide (n = d)) as [->|Hne].
  - rewrite !lookup_insert_eq. split; eauto.
  - rewrite !lookup_insert_ne by exact Hne. exact Hacc.
Qed.

Lemma collected_lookup (result : model_answer) (d : string) :
  collected result !! d =
    if decide (d ∈ DIMENSION_NAMES) then rating_of <$> answers result !! d
    else None.
Proof.
  unfold collected, collect_ratings.
  pose proof (collect_fold_ratings result DIMENSION_NAMES (∅, ∅) d) as H.
  destruct (foldl (collect_dimension result) (∅, ∅) DIMENSION_NAMES)
    as [r j] eqn:Hfold.
  cbn [fst] in *. rewrite H.
  destruct (decide (d ∈ DIMENSION_NAMES)).
  - destruct (answers result !! d); [reflexivity|apply lookup_empty].
  - apply lookup_empty.
Qed.

(** X13: the ratings [evaluate_dimensions] hands on hold exactly the
    dimensions the answer has among the nine names: a key outside the nine
    is dropped, a dimension the answer lacks stays absent, and one whose
    object has no ["value"] is rated 0.  The justifications have the same
    keys as the ratings. *)
Theorem collected_ratings (result : model_answer) (d : string) :
  (d ∈ DIMENSION_NAMES ->
   collected result !! d = rating_of <$> answers result !! d) /\
  (d ∉ DIMENSION_NAMES -> collected result !! d = None) /\
  (is_Some (collected result !! d) <->
   is_Some (snd (fst (collect_ratings result)) !! d)).
Proof.
  split; [|split].
  - intros Hin. rewrite collected_lookup.
    destruct (decide (d ∈ DIMENSION_NAMES)); [reflexivity|contradiction].
  - intros Hnin. rewrite collected_lookup.
    destruct (decide (d ∈ DIMENSION_NAMES)); [contradiction|reflexivity].
  - unfold collected, collect_ratings.
    pose proof (collect_fold_keys result DIMENSION_NAMES (∅, ∅) d) as H.
    destruct (foldl (collect_dimension result) (∅, ∅) DIMENSION_NAMES)
      as [r j] eqn:Hfold.
    cbn [fst snd] in *. apply H. rewrite !lookup_empty.
    split; intros [? ?]; discriminate.
Qed.

Lemma collected_ratings_witness :
  collected answer_without_values !! "frame" =
    rating_of <$> answers answer_without_values !! "frame" /\
  collected answer_without_values !! "size" = None.
Proof.
  split.
  - apply (collected_ratings answer_without_values "frame").
    unfold DIMENSION_NAMES. repeat constructor.
  - apply (collected_ratings answer_without_values "size").
    intros Hin. apply list_elem_of_In in Hin. simpl in Hin.
    intuition discriminate.
Defined.

Lemma dict_get2_zero_column {V : Type} (T : dict (dict V)) (k : pynum)
    (dflt : V) :
  dict_all no_zero_key T = true ->
  dict_get (dict_get T k []) (Num 0) dflt = dflt.
Proof.
  intros HT.
  assert (Hrow : no_zero_key (dict_get T k []) = true)
    by (apply dict_get_all; [exact HT|reflexivity]).
  unfold no_zero_key in Hrow. unfold dict_get at 1.
  destruct (dict_find (dict_get T k []) 0%Q); [discriminate|reflexivity].
Qed.

Lemma dict_get_empty {V : Type} (k : pynum) (dflt : V) :
  dict_get [] k dflt = dflt.
Proof. destruct k; reflexivity. Qed.

Lemma collected_without_value (result : model_answer) (d : string)
    (a : dimension_answer) :
  d ∈ DIMENSION_NAMES ->
  answers result !! d = Some a ->
  answer_value a = None ->
  ratings_get (collected result) d (Num 1) = Num 0.
Proof.
  intros Hin Ha Hv. unfold ratings_get. rewrite collected_lookup.
  destruct (decide (d ∈ DIMENSION_NAMES)); [|contradiction].
  rewrite Ha. unfold rating_of. cbn. rewrite Hv. reflexivity.
Qed.

(** X14: a dimension that the answer has without a ["value"] is rated 0,
    not 1 like a missing one, and 0 is a key of no table: Communication x
    Frame, Innovation x Complexity, Knowledge x Teams and Breadth then give
    0 points for the component it feeds, and for impact or contribution the
    intermediate value falls back to 1. *)
Theorem answer_without_value (result : model_answer) (sz : pynum)
    (d : string) (a : dimension_answer) (p : part) (b : breakdown) :
  answers result !! d = Some a ->
  answer_value a = None ->
  feeds d = Some p ->
  lookup_points module_globals (collected result) sz = Ok b ->
  (p <> ImpactContributionSize -> points_of p b = 0) /\
  (p = ImpactContributionSize -> intermediate_value b = 1%Q).
Proof.
  intros Ha Hv Hp Hb.
  assert (R : forall name, name = d -> name ∈ DIMENSION_NAMES ->
            ratings_get (collected result) name (Num 1) = Num 0).
  { intros name -> Hin. exact (collected_without_value result d a Hin Ha Hv). }
  apply lookup_points_inv in Hb
    as (i & sc & c & n & k & Hi & Hs & Hc & Hn & Hk
        & Hiv & Hics & Hcf & Hic & Hkt & Hbr & _).
  unfold feeds in Hp.
  destruct (String.eqb_spec d "impact") as [E|_].
  { injection Hp as <-. split; [congruence|intros _].
    rewrite (R "impact" (eq_sym E)) in Hi by (unfold DIMENSION_NAMES; repeat constructor).
    injection Hi as <-.
    rewrite Hiv.
    replace (dict_get (IMPACT_CONTRIBUTION_TABLE module_globals)
               (Num (inject_Z (0 ÷ 1))) []) with (@nil (Q * Q))
      by (vm_compute; reflexivity).
    apply dict_get_empty. }
  destruct (String.eqb_spec d "contribution") as [E|_].
  { injection Hp as <-. split; [congruence|intros _].
    rewrite (R "contribution" (eq_sym E)) in Hiv
      by (unfold DIMENSION_NAMES; repeat constructor).
    rewrite Hiv. apply dict_get2_zero_column. vm_compute. reflexivity. }
  cbn [orb] in Hp.
  destruct (String.eqb_spec d "communication") as [E|_].
  { injection Hp as <-. split; [intros _|discriminate]. cbn [points_of].
    rewrite (R "communication" (eq_sym E)) in Hc
      by (unfold DIMENSION_NAMES; repeat constructor).
    injection Hc as <-. rewrite Hcf.
    replace (dict_get (COMMUNICATION_FRAME_TABLE module_globals)
               (Num (inject_Z (0 ÷ 1))) []) with (@nil (Q * Z))
      by (vm_compute; reflexivity).
    apply dict_get_empty. }
  destruct (String.eqb_spec d "frame") as [E|_].
  { injection Hp as <-. split; [intros _|discriminate]. cbn [points_of].
    rewrite (R "frame" (eq_sym E)) in Hcf by (unfold DIMENSION_NAMES; repeat constructor).
    rewrite Hcf. apply dict_get2_zero_column. vm_compute. reflexivity. }
  cbn [orb] in Hp.
  destruct (String.eqb_spec d "innovation") as [E|_].
  { injection Hp as <-. split; [intros _|discriminate]. cbn [points_of].
    rewrite (R "innovation" (eq_sym E)) in Hn
      by (unfold DIMENSION_NAMES; repeat constructor).
    injection Hn as <-. rewrite Hic.
    replace (dict_get (INNOVATION_COMPLEXITY_TABLE module_globals)
               (Num (inject_Z (0 ÷ 1))) []) with (@nil (Q * Z))
      by (vm_compute; reflexivity).
    apply dict_get_empty. }
  destruct (String.eqb_spec d "complexity") as [E|_].
  { injection Hp as <-. split; [intros _|discriminate]. cbn [points_of].
    rewrite (R "complexity" (eq_sym E)) in Hic
      by (unfold DIMENSION_NAMES; repeat constructor).
    rewrite Hic. apply dict_get2_zero_column. vm_compute. reflexivity. }
  cbn [orb] in Hp.
  destruct (String.eqb_spec d "knowledge") as [E|_].
  { injection Hp as <-. split; [intros _|discriminate]. cbn [points_of].
    rewrite (R "knowledge" (eq_sym E)) in Hk
      by (unfold DIMENSION_NAMES; repeat constructor).
    injection Hk as <-. rewrite Hkt.
    replace (dict_get (KNOWLEDGE_TEAMS_TABLE module_globals)
               (Num (inject_Z (0 ÷ 1))) []) with (@nil (Q * Z))
      by (vm_compute; reflexivity).
    apply dict_get_empty. }
  destruct (String.eqb_spec d "teams") as [E|_].
  { injection Hp as <-. split; [intros _|discriminate]. cbn [points_of].
    rewrite (R "teams" (eq_sym E)) in Hkt by (unfold DIMENSION_NAMES; repeat constructor).
    rewrite Hkt. apply dict_get2_zero_column. vm_compute. reflexivity. }
  cbn [orb] in Hp.
  destruct (String.eqb_spec d "breadth") as [E|_]; [|discriminate].
  injection Hp as <-. split; [intros _|discriminate]. cbn [points_of].
  rewrite (R "breadth" (eq_sym E)) in Hbr by (unfold DIMENSION_NAMES; repeat constructor).
  rewrite Hbr. vm_compute. reflexivity.
Qed.

Lemma answer_without_value_witness :
  points_of CommunicationFrame breakdown_without_values = 0.
Proof.
  apply (answer_without_value answer_without_values (Num 7) "frame"
           {| answer_value := None; answer_reasoning := None |}
           CommunicationFrame breakdown_without_values).
  - vm_compute. reflexivity.
  - reflexivity.
  - reflexivity.
  - vm_compute. reflexivity.
  - discriminate.
Defined.

(** ** The JSON object in the model's reply *)

Lemma str_find_range (c : ascii) (text : list ascii) :
  -1 <= str_find c text < Z.of_nat (length text).
Proof.
  induction text as [|x rest IH]; simpl; [lia|].
  destruct (Ascii.eqb x c); [lia|].
  destruct (Z.ltb_spec (str_find c rest) 0); lia.
Qed.

Lemma str_find_app (c : ascii) (pre rest : list ascii) :
  ~ In c pre -> str_find c (pre ++ c :: rest) = Z.of_nat (length pre).
Proof.
  intros Hpre. induction pre as [|x pre IH]; simpl.
  - rewrite Ascii.eqb_refl. reflexivity.
  - destruct (Ascii.eqb_spec x c) as [->|_];
      [exfalso; apply Hpre; left; reflexivity|].
    rewrite IH by (intros H; apply Hpre; right; exact H).
    destruct (Z.ltb_spec (Z.of_nat (length pre)) 0); lia.
Qed.

Lemma str_find_after (c : ascii) (pre post : list ascii) :
  ~ In c pre ->
  str_find c (pre ++ post) = -1 \/
  Z.of_nat (length pre) <= str_find c (pre ++ post).
Proof.
  intros Hpre. induction pre as [|x pre IH]; simpl.
  - pose proof (str_find_range c post). lia.
  - destruct (Ascii.eqb_spec x c) as [->|_];
      [exfalso; apply Hpre; left; reflexivity|].
    destruct IH as [IH|IH]; [intros H; apply Hpre; right; exact H| |].
    + rewrite IH. left. reflexivity.
    + destruct (Z.ltb_spec (str_find c (pre ++ post)) 0); lia.
Qed.

Lemma str_rfind_range (c : ascii) (text : list ascii) :
  -1 <= str_rfind c text < Z.of_nat (length text).
Proof.
  induction text as [|x rest IH]; simpl; [lia|].
  destruct (Z.leb_spec 0 (str_rfind c rest)); [lia|].
  destruct (Ascii.eqb x c); lia.
Qed.

Lemma str_rfind_not_in (c : ascii) (text : list ascii) :
  ~ In c text -> str_rfind c text = -1.
Proof.
  induction text as [|x rest IH]; simpl; [reflexivity|]. intros H.
  rewrite IH by (intros H'; apply H; right; exact H').
  destruct (Ascii.eqb_spec x c) as [->|_]; [|reflexivity].
  exfalso. apply H. left. reflexivity.
Qed.

Lemma str_rfind_app (c : ascii) (pre post : list ascii) :
  ~ In c post -> str_rfind c (pre ++ c :: post) = Z.of_nat (length pre).
Proof.
  intros Hpost. induction pre as [|x pre IH]; simpl.
  - rewrite (str_rfind_not_in c post Hpost), Ascii.eqb_refl. reflexivity.
  - rewrite IH. destruct (Z.leb_spec 0 (Z.of_nat (length pre))); lia.
Qed.

Lemma str_rfind_before (c : ascii) (pre post : list ascii) :
  ~ In c post -> str_rfind c (pre ++ post) = str_rfind c pre.
Proof.
  intros Hpost. induction pre as [|x pre IH]; simpl.
  - apply str_rfind_not_in, Hpost.
  - rewrite IH. reflexivity.
Qed.

Lemma slice_middle (pre body post : list ascii) :
  slice (pre ++ body ++ post) (Z.of_nat (length pre))
    (Z.of_nat (length pre) + Z.of_nat (length body)) = body.
Proof.
  unfold slice. rewrite Nat2Z.id.
  replace (Z.of_nat (length pre) + Z.of_nat (length body) - Z.of_nat (length pre))
    with (Z.of_nat (length body)) by lia.
  rewrite Nat2Z.id.
  rewrite drop_app_length, take_app_length. reflexivity.
Qed.

(** X15: text around the JSON object is ignored.  When the reply is some
    text without an opening brace, then an object from ["{"] to ["}"], then
    some text without a closing brace, [query_claude_json] hands exactly
    the object to [json.loads] and returns what it returns (and raises
    [RuntimeError] when [json.loads] raises). *)
Theorem extract_json_ignores_prose (J : Type)
    (json_loads : list ascii -> option J) (pre mid post : list ascii) :
  ~ In "{"%char pre ->
  ~ In "}"%char post ->
  extract_json json_loads (pre ++ "{"%char :: mid ++ "}"%char :: post) =
    match json_loads ("{"%char :: mid ++ ["}"%char]) with
    | Some v => Returned v
    | None => RuntimeError
    end.
Proof.
  intros Hpre Hpost.
  assert (Hf : str_find "{"%char (pre ++ "{"%char :: mid ++ "}"%char :: post)
               = Z.of_nat (length pre))
    by (apply str_find_app, Hpre).
  assert (Hr : str_rfind "}"%char (pre ++ "{"%char :: mid ++ "}"%char :: post)
               = Z.of_nat (length pre) + Z.of_nat (length mid) + 1).
  { replace (pre ++ "{"%char :: mid ++ "}"%char :: post)
      with ((pre ++ "{"%char :: mid) ++ "}"%char :: post)
      by (rewrite <- app_assoc; reflexivity).
    rewrite (str_rfind_app _ _ post Hpost), length_app. cbn [length]. lia. }
  unfold extract_json. rewrite Hf, Hr.
  destruct (Z.geb_spec (Z.of_nat (length pre)) 0) as [_|]; [|lia].
  destruct (Z.gtb_spec (Z.of_nat (length pre) + Z.of_nat (length mid) + 1 + 1)
              (Z.of_nat (length pre))) as [_|]; [|lia].
  cbn [andb].
  replace (pre ++ "{"%char :: mid ++ "}"%char :: post)
    with (pre ++ ("{"%char :: mid ++ ["}"%char]) ++ post)
    by (cbn [app]; rewrite <- app_assoc; reflexivity).
  replace (Z.of_nat (length pre) + Z.of_nat (length mid) + 1 + 1)
    with (Z.of_nat (length pre)
          + Z.of_nat (length ("{"%char :: mid ++ ["}"%char])))
    by (cbn [length]; rewrite length_app; cbn [length]; lia).
  rewrite slice_middle. reflexivity.
Qed.

(** X16: a reply with no opening brace, or whose closing braces all come
    before the first opening brace, raises [RuntimeError]; [json.loads] is
    not consulted. *)
Theorem extract_json_no_object (J : Type)
    (json_loads : list ascii -> option J) (pre post : list ascii) :
  ~ In "{"%char pre ->
  ~ In "}"%char post ->
  extract_json json_loads (pre ++ post) = RuntimeError.
Proof.
  intros Hpre Hpost. unfold extract_json.
  rewrite (str_rfind_before _ pre post Hpost).
  pose proof (str_rfind_range "}"%char pre) as Hr.
  destruct (str_find_after "{"%char pre post Hpre) as [Hf|Hf].
  - rewrite Hf. reflexivity.
  - destruct (Z.gtb_spec (str_rfind "}"%char pre + 1)
                (str_find "{"%char (pre ++ post))) as [|_]; [lia|].
    rewrite andb_false_r. reflexivity.
Qed.

(** A reply with a sentence before and after the object. *)
Lemma extract_json_ignores_prose_witness :
  extract_json Some
    (String.list_ascii_of_string "Here: " ++
     "{"%char :: String.list_ascii_of_string "a" ++
     "}"%char :: String.list_ascii_of_string " ok") =
  Returned (String.list_ascii_of_string "{a}").
Proof.
  apply (extract_json_ignores_prose (list ascii) Some
           (String.list_ascii_of_string "Here: ") (String.list_ascii_of_string "a")
           (String.list_ascii_of_string " ok")).
  - cbv. intuition discriminate.
  - cbv. intuition discriminate.
Defined.

(** A closing brace, then an opening one. *)
Lemma extract_json_no_object_witness :
  extract_json Some
    (String.list_ascii_of_string "} no object " ++ String.list_ascii_of_string "{") =
  @RuntimeError (list ascii).
Proof.
  apply (extract_json_no_object (list ascii) Some
           (String.list_ascii_of_string "} no object ") (String.list_ascii_of_string "{")).
  - cbv. intuition discriminate.
  - cbv. intuition discriminate.
Defined.
